(** * A shallow embedding of cluttool's ColorLUT core (src/cluttool/cluttool.py)

    Numbers: Python ints are [Z].  The main development reads Python floats
    and the Decimal remainder as exact rationals [Q] (no binary rounding);
    module [F64] below re-models, with IEEE-754 binary64 arithmetic (Rocq's
    primitive [float]), the functions whose results depend on that rounding:
    [uniform_intervals], [get_interpolated_color_value],
    [get_values_translated] and [write_3dl]; what is stated about their
    rounding (C3, C6, C8) is stated over [F64].  Exceptions are the
    constructors of [exn]; a fallible computation returns [res].  A lazily
    consumed generator is modelled as the list of values it yields followed
    by the exception that stops it, if any. *)

From Stdlib Require Import ZArith QArith Qround Qabs Lia Lqa List Bool Sorted.
From Stdlib Require Ascii String.
From Stdlib Require PrimFloat SpecFloat FloatOps FloatAxioms.
Import ListNotations.
Import (notations) Stdlib.Strings.String Stdlib.Strings.Ascii.

Open Scope Z_scope.

(** ** Python runtime: exceptions, values, arithmetic *)

Inductive ve_msg :=
| VE_data | VE_sample_count | VE_input_domain | VE_type_mismatch
| VE_dimensions | VE_nonuniform
| VE_palette | VE_gamma | VE_transparent | VE_alpha | VE_bitdepth | VE_hald_dims
| VE_nan_to_int  (* math.trunc or round of a float NaN *).

Inductive exn :=
| ValueError (m : ve_msg)
| IndexError
| ZeroDivisionError
| TypeError
| OverflowError            (* float() of a too large int; trunc or round of an infinity *)
| DecimalInvalidOperation. (* decimal.InvalidOperation, trapped by the default context *)

Inductive res (A : Type) : Type :=
| Ok (a : A)
| Err (e : exn).
Arguments Ok {A} a.
Arguments Err {A} e.

Definition bind {A B} (m : res A) (f : A -> res B) : res B :=
  match m with Ok a => f a | Err e => Err e end.

Notation "x <- m ;; f" := (bind m (fun x => f))
  (at level 61, m at next level, right associativity).

(** A Python value passed where the source accepts [None], an int or a float. *)
Inductive pyval :=
| PNone
| PInt (z : Z)
| PFloat (q : Q).

(** Numeric value of a number ([None] is never used as a number below). *)
Definition pynum (v : pyval) : Q :=
  match v with PNone => 0%Q | PInt z => inject_Z z | PFloat q => q end.

(** [float(v)] *)
Definition py_float (v : pyval) : res Q :=
  match v with PNone => Err TypeError | PInt z => Ok (inject_Z z) | PFloat q => Ok q end.

(** [x / y] on numbers: division by zero raises. *)
Definition py_div (x y : Q) : res Q :=
  if Qeq_bool y 0 then Err ZeroDivisionError else Ok (x / y)%Q.

(** [x / y] where [x] may be [None]: [None / float] raises TypeError. *)
Definition py_truediv (x : pyval) (y : Q) : res Q :=
  match x with PNone => Err TypeError | _ => py_div (pynum x) y end.

(** [x != y] between [None] and numbers (numeric comparison). *)
Definition py_ne (x y : pyval) : bool :=
  match x, y with
  | PNone, PNone => false
  | PNone, _ | _, PNone => true
  | _, _ => negb (Qeq_bool (pynum x) (pynum y))
  end.

(** [range(n)] *)
Definition py_range (n : Z) : list Z := map Z.of_nat (seq 0 (Z.to_nat n)).

(** Bounds of a slice [l[i:j]]: negative indices count from the end, then
    both are clamped into [0, len]. *)
Definition py_slice_index (len i : Z) : Z :=
  if i <? 0 then Z.max 0 (i + len) else Z.min i len.

Definition py_slice {A} (l : list A) (i j : Z) : list A :=
  let len := Z.of_nat (length l) in
  let i' := py_slice_index len i in
  let j' := py_slice_index len j in
  firstn (Z.to_nat (j' - i')) (skipn (Z.to_nat i') l).

(** [int(round(v))] on a float: Python 3 rounds half to even.  The same rule
    is used by ['{:.0f}'.format(v)]. *)
Definition round_half_even (q : Q) : Z :=
  let f := Qfloor q in
  match Qcompare (q - inject_Z f) (1 # 2) with
  | Lt => f
  | Gt => f + 1
  | Eq => if Z.even f then f else f + 1
  end.

(** [math.trunc] *)
Definition Qtrunc (q : Q) : Z := Z.quot (Qnum q) (Zpos (Qden q)).

(** [Decimal(v) % Decimal(m)]: the remainder takes the sign of the dividend. *)
Definition decimal_rem (v m : Q) : Q := (v - m * inject_Z (Qtrunc (v / m)))%Q.

(** array typecodes of the [array] module (the numeric ones). *)
Inductive tcode := tc_b | tc_B | tc_h | tc_H | tc_i | tc_I | tc_l | tc_L
                 | tc_q | tc_Q | tc_f | tc_d.

Definition in_bBhHiIlL (t : tcode) : bool :=
  match t with
  | tc_b | tc_B | tc_h | tc_H | tc_i | tc_I | tc_l | tc_L => true
  | _ => false
  end.

Definition in_fd (t : tcode) : bool :=
  match t with tc_f | tc_d => true | _ => false end.

Record pyarray := mk_array { typecode : tcode; items : list Q }.

(** ** Value3D *)

Record Value3D := V3 { c0 : Q; c1 : Q; c2 : Q }.

Definition v3_add (x y : Value3D) : Value3D :=
  V3 (c0 x + c0 y) (c1 x + c1 y) (c2 x + c2 y).

Definition v3_mul (x : Value3D) (y : Q) : Value3D :=
  V3 (c0 x * y) (c1 x * y) (c2 x * y).

Definition v3_eq (x y : Value3D) : Prop :=
  (c0 x == c0 y /\ c1 x == c1 y /\ c2 x == c2 y)%Q.

(** [Value3D(components)] followed by [str(...)] in the debug echo of
    [get_color_value_from_index]: formatting ['Value3D({},{},{})'] with
    fewer than three components raises IndexError. *)
Definition Value3D_of_slice (l : list Q) : res Value3D :=
  match l with
  | a :: b :: c :: _ => Ok (V3 a b c)
  | _ => Err IndexError
  end.

(** ** index_3d *)

Definition index_3d (data : list Q) (size r_idx g_idx b_idx : Z) : list Q :=
  let idx := r_idx + size * g_idx + size ^ 2 * b_idx in
  let idx := idx * 3 in
  py_slice data idx (idx + 3).

(** ** ColorLUT *)

Inductive numkind := Integral | Real.

Record ColorLUT := mk_lut {
  data : pyarray;
  sample_count : Z;
  input_domain : pyval;
  red_increments_fastest : bool;
  datatype : numkind;
  sample_distance : Q
}.

(** [ColorLUT.__init__] *)
Definition ColorLUT_init (d : pyarray) (sample_count : pyval)
    (input_domain : pyval) (red_increments_fastest : bool) : res ColorLUT :=
  match items d with
  | [] => Err IndexError                              (* data[0] *)
  | _ :: _ =>
    match sample_count with
    | PInt n =>
      match input_domain with
      | PNone => Err (ValueError VE_input_domain)
      | _ =>
        let kind_ok :=
          match input_domain with
          | PInt _ => in_bBhHiIlL (typecode d)
          | _ => in_fd (typecode d)
          end in
        if negb kind_ok then Err (ValueError VE_type_mismatch)
        else if negb (Z.of_nat (length (items d)) =? 3 * n ^ 3)
        then Err (ValueError VE_dimensions)
        else
          dom <- py_float input_domain ;;
          sd <- py_div dom (inject_Z (n - 1)) ;;
          Ok (mk_lut d n input_domain red_increments_fastest
                (if in_fd (typecode d) then Real else Integral) sd)
      end
    | _ => Err (ValueError VE_sample_count)
    end
  end.

(** [ColorLUT.get_color_value_from_index] *)
Definition get_color_value_from_index (lut : ColorLUT) (r_idx g_idx b_idx : Z)
    : res Value3D :=
  let '(r_idx, b_idx) :=
    if red_increments_fastest lut then (r_idx, b_idx) else (b_idx, r_idx) in
  Value3D_of_slice
    (index_3d (items (data lut)) (sample_count lut) r_idx g_idx b_idx).

(** One axis of [get_interpolated_color_value]: the lower grid index
    [v_0_idx] and the weight [v_d]. *)
Definition axis_coords (lut : ColorLUT) (v_input : Q) : res (Z * Q) :=
  if Qeq_bool v_input (pynum (input_domain lut)) then
    Ok (sample_count lut - 2, 1%Q)
  else
    q <- py_div v_input (sample_distance lut) ;;
    v_d <- py_div (decimal_rem v_input (sample_distance lut)) (sample_distance lut) ;;
    Ok (Qtrunc q, v_d).

(** [a*(1.0-d) + b*d] *)
Definition lerp (a b : Value3D) (d : Q) : Value3D :=
  v3_add (v3_mul a (1 - d)%Q) (v3_mul b d).

(** [ColorLUT.get_interpolated_color_value] *)
Definition get_interpolated_color_value (lut : ColorLUT) (r_input g_input b_input : Q)
    : res Value3D :=
  rc <- axis_coords lut r_input ;;
  gc <- axis_coords lut g_input ;;
  bc <- axis_coords lut b_input ;;
  let '(r_0_idx, r_d) := rc in
  let '(g_0_idx, g_d) := gc in
  let '(b_0_idx, b_d) := bc in
  let r_1_idx := r_0_idx + 1 in
  let g_1_idx := g_0_idx + 1 in
  let b_1_idx := b_0_idx + 1 in
  c_000 <- get_color_value_from_index lut r_0_idx g_0_idx b_0_idx ;;
  c_001 <- get_color_value_from_index lut r_0_idx g_0_idx b_1_idx ;;
  c_010 <- get_color_value_from_index lut r_0_idx g_1_idx b_0_idx ;;
  c_011 <- get_color_value_from_index lut r_0_idx g_1_idx b_1_idx ;;
  c_100 <- get_color_value_from_index lut r_1_idx g_0_idx b_0_idx ;;
  c_101 <- get_color_value_from_index lut r_1_idx g_0_idx b_1_idx ;;
  c_110 <- get_color_value_from_index lut r_1_idx g_1_idx b_0_idx ;;
  c_111 <- get_color_value_from_index lut r_1_idx g_1_idx b_1_idx ;;
  let c_00 := lerp c_000 c_100 r_d in
  let c_01 := lerp c_001 c_101 r_d in
  let c_10 := lerp c_010 c_110 r_d in
  let c_11 := lerp c_011 c_111 r_d in
  let c_0 := lerp c_00 c_10 g_d in
  let c_1 := lerp c_01 c_11 g_d in
  Ok (lerp c_0 c_1 b_d).

(** ** get_values_translated *)

(** The generator of grid coordinates, outermost loop first. *)
Definition indexes (increment_red_fastest : bool) (n : Z) : list (Z * Z * Z) :=
  if increment_red_fastest then
    flat_map (fun b => flat_map (fun g => map (fun r => (r, g, b))
      (py_range n)) (py_range n)) (py_range n)
  else
    flat_map (fun r => flat_map (fun g => map (fun b => (r, g, b))
      (py_range n)) (py_range n)) (py_range n).

(** A generator expression [(f(x) for x in l)] consumed to the end: the values
    it yields, then the exception that stopped it, if any. *)
Fixpoint stream_map {A B} (f : A -> res B) (l : list A) : list B * option exn :=
  match l with
  | [] => ([], None)
  | x :: t =>
    match f x with
    | Err e => ([], Some e)
    | Ok y => let '(ys, e) := stream_map f t in (y :: ys, e)
    end
  end.

(** [ColorLUT.get_values_translated].  It is not a generator function: the
    statements before [return] run at call time (errors there are [Err]), and
    the outermost [range(output_sample_count)] of the generator expression is
    evaluated eagerly as well. *)
Definition get_values_translated (lut : ColorLUT) (increment_red_fastest : bool)
    (output_sample_count output_domain : pyval)
    : res (list Value3D * option exn) :=
  let interpolate_output := py_ne output_sample_count (PInt (sample_count lut)) in
  let scale_output := py_ne output_domain (input_domain lut) in
  fdom <- py_float (input_domain lut) ;;
  scaling_factor <- py_truediv output_domain fdom ;;
  n <- match output_sample_count with PInt n => Ok n | _ => Err TypeError end ;;
  let idxs := indexes increment_red_fastest n in
  let output_values :=
    if interpolate_output then
      stream_map (fun '(r, g, b) =>
          step <- py_div (pynum (input_domain lut)) (inject_Z (n - 1)) ;;
          get_interpolated_color_value lut
            (inject_Z r * step) (inject_Z g * step) (inject_Z b * step)) idxs
    else
      stream_map (fun '(r, g, b) => get_color_value_from_index lut r g b) idxs in
  Ok (if scale_output then
        let '(vs, e) := output_values in
        (map (fun v => v3_mul v scaling_factor) vs, e)
      else output_values).

(** ** uniform_intervals *)

(** The tolerance [0.07] of the source, read as the decimal fraction. *)
Definition tolerance : Q := 7 # 100.

(** The loop [for idx in range(1, samples)] over adjacent values. *)
Fixpoint check_spacing (dist prev : Q) (rest : list Q) : res unit :=
  match rest with
  | [] => Ok tt
  | v :: t =>
    q <- py_div (v - prev) dist ;;
    if negb (Qle_bool (Qabs (q - 1)) tolerance)
    then Err (ValueError VE_nonuniform)
    else check_spacing dist v t
  end.

Definition uniform_intervals (end_ : Q) (samples : Z) (floating_point : bool)
    : res (list Q) :=
  dist <- py_div end_ (inject_Z (samples - 1)) ;;
  let values := map (fun i => dist * inject_Z i)%Q (py_range samples) in
  if floating_point then Ok values
  else
    let values := map (fun v => inject_Z (round_half_even v)) values in
    _ <- match values with [] => Ok tt | v :: t => check_spacing dist v t end ;;
    Ok values.

(** ** write_3dl *)

(** A line written to the destination file. *)
Inductive line :=
| Header (vs : list Q)
| Row (r g b : Z).

(** ['{:.0f}'] applied to each component of a color. *)
Definition format_row (v : Value3D) : line :=
  Row (round_half_even (c0 v)) (round_half_even (c1 v)) (round_half_even (c2 v)).

(** [ColorLUT.write_3dl]: the lines written, then the exception that stopped
    the writing, if any.  Errors raised before [open(dest, 'w')] are [Err]. *)
Definition write_3dl (lut : ColorLUT) : res (list line * option exn) :=
  let output_domain := 1023 in
  sample_intervals <- uniform_intervals (inject_Z output_domain) (sample_count lut) false ;;
  color_value_gen <- get_values_translated lut false
                       (PInt (sample_count lut)) (PInt output_domain) ;;
  let '(colors, e) := color_value_gen in
  Ok (Header sample_intervals :: map format_row colors, e).

(** ** from_haldclut *)

(** Floor of the [k]-th root of [n >= 0] by bisection on [[lo, hi)]. *)
Fixpoint iroot_search (fuel : nat) (k n lo hi : Z) : Z :=
  match fuel with
  | O => lo
  | S f =>
    if hi - lo <=? 1 then lo
    else
      let m := (lo + hi) / 2 in
      if m ^ k <=? n then iroot_search f k n m hi else iroot_search f k n lo m
  end.

Definition iroot (k n : Z) : Z :=
  iroot_search (S (Z.to_nat (Z.log2 (n + 1)))) k n 0 (n + 1).

(** [is_perfect_six_root].  [c = int(n**(1/6.))] is the float sixth root
    truncated; it is taken here as the exact floor root [iroot 6 n].  The float
    may land one below it (for [4096] it is [3.9999999999999996]); the
    [(c+1)**6 == n] test of the source covers that case, see
    [is_perfect_six_root_c_pred] below. *)
Definition is_perfect_six_root_c (c n : Z) : bool :=
  (c ^ 6 =? n) || ((c + 1) ^ 6 =? n).

Definition is_perfect_six_root (n : Z) : bool :=
  is_perfect_six_root_c (iroot 6 n) n.

(** [int(round(n**(1./3)))]: the nearest integer to the real cube root. *)
Definition round_cbrt (n : Z) : Z :=
  let r := iroot 3 n in
  if (2 * r + 1) ^ 3 <=? 8 * n then r + 1 else r.

(** What the PNG decoder ([png.Reader.read_flat]) returns. *)
Record png_meta := mk_meta {
  has_palette : bool;
  has_gamma : bool;
  has_transparent : bool;
  alpha : bool;
  greyscale : bool;
  bitdepth : Z
}.

Record decoded_png := mk_png {
  width : Z;
  height : Z;
  pixels : pyarray;
  meta : png_meta
}.

(** The local generator [triple_generator] of [from_haldclut]. *)
Fixpoint triple_generator (d : list Q) : list Q :=
  match d with
  | [] => []
  | val :: t => val :: val :: val :: triple_generator t
  end.

(** [ColorLUT.from_haldclut], after decoding. *)
Definition from_haldclut (src : decoded_png) : res ColorLUT :=
  let m := meta src in
  if has_palette m then Err (ValueError VE_palette)
  else if has_gamma m then Err (ValueError VE_gamma)
  else if has_transparent m then Err (ValueError VE_transparent)
  else if alpha m then Err (ValueError VE_alpha)
  else
  let data :=
    if greyscale m
    then mk_array (typecode (pixels src)) (triple_generator (items (pixels src)))
    else pixels src in
  if negb ((bitdepth m =? 8) || (bitdepth m =? 16))
  then Err (ValueError VE_bitdepth)
  else
  let width_is_square_root_of_perfect_six_root :=
    is_perfect_six_root (width src ^ 2) in
  if negb (width src =? height src) || negb width_is_square_root_of_perfect_six_root
  then Err (ValueError VE_hald_dims)
  else
  let sample_count := round_cbrt (width src ^ 2) in
  let input_domain := 2 ^ bitdepth m - 1 in
  ColorLUT_init data (PInt sample_count) (PInt input_domain) true.

(** ** write_cube *)

(** A line written by [write_cube]: the size header ['LUT_3D_SIZE {}'], or a
    color row [' '.join('{:.7g}'.format(v) for v in color)].  The row keeps
    the color it formats; the ['{:.7g}'] text rendering is not modelled. *)
Inductive cube_line :=
| CubeSize (n : Z)
| CubeRow (v : Value3D).

(** [ColorLUT.write_cube]: the lines written, then the exception that stopped
    the writing, if any.  Errors raised before [open(dest, 'w')] are [Err]. *)
Definition write_cube (lut : ColorLUT) : res (list cube_line * option exn) :=
  let output_domain := PFloat 1 in
  let output_sample_count := sample_count lut in
  color_value_gen <- get_values_translated lut true
                       (PInt output_sample_count) output_domain ;;
  let '(colors, e) := color_value_gen in
  Ok (CubeSize output_sample_count :: map CubeRow colors, e).

(** ** cli *)

(** Paths and type names are ASCII strings. *)

(** [str.lower] on ASCII. *)
Definition ascii_lower (c : Ascii.ascii) : Ascii.ascii :=
  let n := Ascii.nat_of_ascii c in
  if (65 <=? n)%nat && (n <=? 90)%nat then Ascii.ascii_of_nat (n + 32) else c.

Fixpoint str_lower (s : String.string) : String.string :=
  match s with
  | String.EmptyString => String.EmptyString
  | String.String c t => String.String (ascii_lower c) (str_lower t)
  end.

(** [s.split(sep)] for a one-character separator: the pieces between the
    separators, empty ones included. *)
Fixpoint py_split (sep : Ascii.ascii) (s : String.string) : list String.string :=
  match s with
  | String.EmptyString => [String.EmptyString]
  | String.String c t =>
    let parts := py_split sep t in
    if Ascii.eqb c sep then String.EmptyString :: parts
    else match parts with
         | p :: ps => String.String c p :: ps
         | [] => [String.String c String.EmptyString]
         end
  end.

(** [s.lower().split('.')[-1]] ([split] never returns an empty list). *)
Definition file_ext (s : String.string) : String.string :=
  last (py_split "." (str_lower s)) String.EmptyString.

Inductive cli_msg := CLI_no_src | CLI_no_dest | CLI_src_type | CLI_dest_type.

(** Exceptions [cli] raises: those of the ColorLUT code, its own ValueErrors,
    [NotImplementedError] of [from_3dl], and any error of the PNG decoder. *)
Inductive cli_exn :=
| PyExn (e : exn)
| CliValueError (m : cli_msg)
| NotImplementedError
| DecodeError.

(** What a run of [cli] does: raise, or write a 3dl or cube file (the lines
    written, then the exception that stopped the writing, if any). *)
Inductive cli_outcome :=
| CliRaised (e : cli_exn)
| Wrote3dl (lines : list line) (e : option exn)
| WroteCube (lines : list cube_line) (e : option exn).

Section Cli.

(** [png.Reader(filename=src).read_flat()]: the decoded image, or [None]
    when the decoder raises. *)
Variable read_flat : String.string -> option decoded_png.

(** [ColorLUT.from_haldclut(src)] *)
Definition load_haldclut (src : String.string) : cli_exn + ColorLUT :=
  match read_flat src with
  | None => inl DecodeError
  | Some p =>
    match from_haldclut p with
    | Ok clut => inr clut
    | Err e => inl (PyExn e)
    end
  end.

(** [cli(src, dest, dest_type)], the body of the click command. *)
Definition cli (src dest : String.string) (dest_type : option String.string)
    : cli_outcome :=
  if String.eqb src "" then CliRaised (CliValueError CLI_no_src)
  else if String.eqb dest "" then CliRaised (CliValueError CLI_no_dest)
  else
  let dest_type :=
    match dest_type with
    | Some t => if String.eqb t "" then None else Some t
    | None => None
    end in
  let dest_type :=
    match dest_type with
    | Some t => t
    | None =>
      let t := file_ext dest in
      if String.eqb t "png" then "haldclut"%string else t
    end in
  let dest_type := str_lower dest_type in
  let src_ext := file_ext src in
  let clut :=
    if String.eqb src_ext "png" then load_haldclut src
    else if String.eqb src_ext "3dl" then inl NotImplementedError
    else if String.eqb src_ext "cube" then load_haldclut src
    else inl (CliValueError CLI_src_type) in
  match clut with
  | inl e => CliRaised e
  | inr clut =>
    (* [clut.write_haldclut(dest)]: the method takes no argument besides
       [self], so the call raises TypeError *)
    if String.eqb dest_type "haldclut" then CliRaised (PyExn TypeError)
    else if String.eqb dest_type "3dl" then
      match write_3dl clut with
      | Err e => CliRaised (PyExn e)
      | Ok (ls, e) => Wrote3dl ls e
      end
    else if String.eqb dest_type "cube" then
      match write_cube clut with
      | Err e => CliRaised (PyExn e)
      | Ok (ls, e) => WroteCube ls e
      end
    else CliRaised (CliValueError CLI_dest_type)
  end.

End Cli.

(** ** Binary64 arithmetic *)

(** The functions whose results depend on the rounding of Python floats,
    again, over IEEE-754 binary64 ([PrimFloat.float], round to nearest even).
    A Python float is a [float] here; the [Q] held by [PFloat] and by the
    items of a ['f'] or ['d'] array is the exact value of such a float. *)
Module F64.

Import PrimFloat.PrimFloatNotations.

(** A Python number: an int, or a float. *)
Inductive num :=
| NInt (z : Z)
| NFlt (f : PrimFloat.float).

(** The binary64 value nearest to a rational, ties to even (the exponent
    unbounded above, so that overflow gives an infinity). *)
Definition Q_to_SF (q : Q) : SpecFloat.spec_float :=
  let round sx n :=
    let '(m, e, l) := SpecFloat.SFdiv_core_binary FloatOps.prec FloatOps.emax
                        (Zpos n) 0 (Zpos (Qden q)) 0 in
    SpecFloat.binary_round_aux FloatOps.prec FloatOps.emax sx m e l in
  match Qnum q with
  | Z0 => SpecFloat.S754_zero false
  | Zpos n => round false n
  | Zneg n => round true n
  end.

Definition Q_to_float (q : Q) : PrimFloat.float := FloatOps.SF2Prim (Q_to_SF q).

(** [float(z)] for an int: rounded to nearest even, OverflowError when
    that is out of range. *)
Definition int_to_float (z : Z) : res PrimFloat.float :=
  match Q_to_SF (inject_Z z) with
  | SpecFloat.S754_infinity _ => Err OverflowError
  | f => Ok (FloatOps.SF2Prim f)
  end.

(** The value [(-1)^s * m * 2^e] of a finite binary64 number. *)
Definition SF_value (s : bool) (m : positive) (e : Z) : Q :=
  let v := if 0 <=? e then inject_Z (Zpos m * 2 ^ e)
           else Qmake (Zpos m) (Pos.pow 2 (Z.to_pos (- e))) in
  if s then Qopp v else v.

(** The exact value of a finite float; [None] for infinities and NaN. *)
Definition float_value (f : PrimFloat.float) : option Q :=
  match FloatOps.Prim2SF f with
  | SpecFloat.S754_zero _ => Some 0%Q
  | SpecFloat.S754_finite s m e => Some (SF_value s m e)
  | _ => None
  end.

(** [float(x)] *)
Definition to_float (x : num) : res PrimFloat.float :=
  match x with NInt z => int_to_float z | NFlt f => Ok f end.

(** [x + y], [x - y], [x * y]: exact on two ints; otherwise an int operand
    is converted with [float()] and the float operation rounds. *)
Definition arith (zop : Z -> Z -> Z) (fop : PrimFloat.float -> PrimFloat.float -> PrimFloat.float)
    (x y : num) : res num :=
  match x, y with
  | NInt a, NInt b => Ok (NInt (zop a b))
  | _, _ => a <- to_float x ;; b <- to_float y ;; Ok (NFlt (fop a b))
  end.

Definition num_add := arith Z.add PrimFloat.add.
Definition num_sub := arith Z.sub PrimFloat.sub.
Definition num_mul := arith Z.mul PrimFloat.mul.

(** [x / y] with a float divisor: ZeroDivisionError when [y] is a zero. *)
Definition truediv (x : num) (y : PrimFloat.float) : res PrimFloat.float :=
  a <- to_float x ;;
  if (y =? PrimFloat.zero)%float then Err ZeroDivisionError else Ok (a / y)%float.

Definition num_of_pyval (v : pyval) : option num :=
  match v with
  | PNone => None
  | PInt z => Some (NInt z)
  | PFloat q => Some (NFlt (Q_to_float q))
  end.

(** [float(v)] *)
Definition float_of_pyval (v : pyval) : res PrimFloat.float :=
  match v with
  | PNone => Err TypeError
  | PInt z => int_to_float z
  | PFloat q => Ok (Q_to_float q)
  end.

(** [v / y] for [v] None, an int or a float, and a float [y]. *)
Definition pyval_truediv (v : pyval) (y : PrimFloat.float) : res PrimFloat.float :=
  match num_of_pyval v with None => Err TypeError | Some x => truediv x y end.

(** [x == v]: ints and floats compare by exact value; NaN equals nothing. *)
Definition eq_pyval (x : num) (v : pyval) : bool :=
  match v with
  | PNone => false
  | _ =>
    match x with
    | NInt z => Qeq_bool (inject_Z z) (pynum v)
    | NFlt f => match float_value f with Some q => Qeq_bool q (pynum v) | None => false end
    end
  end.

(** [math.trunc(f)] *)
Definition py_trunc (f : PrimFloat.float) : res Z :=
  match float_value f with
  | Some q => Ok (Qtrunc q)
  | None => if PrimFloat.is_nan f then Err (ValueError VE_nan_to_int) else Err OverflowError
  end.

(** [round(f)], an int: half to even on the exact value. *)
Definition py_round (f : PrimFloat.float) : res Z :=
  match float_value f with
  | Some q => Ok (round_half_even q)
  | None => if PrimFloat.is_nan f then Err (ValueError VE_nan_to_int) else Err OverflowError
  end.

(** [int(round(x))] *)
Definition round_num (x : num) : res Z :=
  match x with NInt z => Ok z | NFlt f => py_round f end.

(** *** decimal.Decimal *)

(** A Decimal made from an int or a float (exactly): a signed finite value
    (the sign kept for zeros), an infinity or a quiet NaN. *)
Inductive decimal :=
| DFin (neg : bool) (q : Q)
| DInf (neg : bool)
| DNaN.

Definition Decimal_of_num (x : num) : decimal :=
  match x with
  | NInt z => DFin (z <? 0) (inject_Z z)
  | NFlt f =>
    match FloatOps.Prim2SF f with
    | SpecFloat.S754_nan => DNaN
    | SpecFloat.S754_infinity s => DInf s
    | SpecFloat.S754_zero s => DFin s 0
    | SpecFloat.S754_finite s m e => DFin s (SF_value s m e)
    end
  end.

(** Number of decimal digits of [n >= 1]. *)
Fixpoint digits10_fuel (fuel : nat) (n : Z) : Z :=
  match fuel with
  | O => 1
  | S f => if n <? 10 then 1 else 1 + digits10_fuel f (n / 10)
  end.

Definition digits10 (n : Z) : Z := digits10_fuel (Z.to_nat (Z.log2 n + 1)) n.

(** The adjusted exponent [floor(log10 q)] of [q > 0]. *)
Definition adjusted (q : Q) : Z :=
  let e := digits10 (Qnum q) - digits10 (Zpos (Qden q)) in
  if Qle_bool (Qpower (inject_Z 10) e) q then e else e - 1.

(** Rounding to the default context precision, 28 significant digits, half
    to even. *)
Definition dec_round (q : Q) : Q :=
  if Qeq_bool q 0 then 0%Q
  else
    let a := Qabs q in
    let k := 27 - adjusted a in
    let r := (inject_Z (round_half_even (a * Qpower (inject_Z 10) k))
              * Qpower (inject_Z 10) (- k))%Q in
    if Qle_bool 0 q then r else Qopp r.

(** [x % y] on Decimals: the remainder of the quotient truncated toward
    zero, with the sign of [x], rounded to the context precision.  The
    signals the default context traps (x infinite, y zero, an integer
    quotient of more than 28 digits) raise InvalidOperation. *)
Definition decimal_mod (x y : decimal) : res decimal :=
  match x, y with
  | DNaN, _ | _, DNaN => Ok DNaN
  | DInf _, _ => Err DecimalInvalidOperation
  | DFin s a, DInf _ => Ok (DFin s (dec_round a))
  | DFin s a, DFin _ b =>
    if Qeq_bool b 0 then Err DecimalInvalidOperation
    else
      let t := Qtrunc (a / b) in
      if 10 ^ 28 <=? Z.abs t then Err DecimalInvalidOperation
      else Ok (DFin s (dec_round (a - b * inject_Z t)))
  end.

(** [float(d)]: correctly rounded. *)
Definition float_of_decimal (d : decimal) : PrimFloat.float :=
  match d with
  | DNaN => PrimFloat.nan
  | DInf s => if s then PrimFloat.neg_infinity else PrimFloat.infinity
  | DFin s q =>
    if Qeq_bool q 0 then (if s then PrimFloat.neg_zero else PrimFloat.zero)
    else Q_to_float q
  end.

(** *** Value3D *)

Record Value3D := mkV { comp0 : num; comp1 : num; comp2 : num }.

(** [Value3D.__add__] *)
Definition v3_add (x y : Value3D) : res Value3D :=
  a <- num_add (comp0 x) (comp0 y) ;;
  b <- num_add (comp1 x) (comp1 y) ;;
  c <- num_add (comp2 x) (comp2 y) ;;
  Ok (mkV a b c).

(** [Value3D.__mul__] *)
Definition v3_mul (x : Value3D) (y : num) : res Value3D :=
  a <- num_mul (comp0 x) y ;;
  b <- num_mul (comp1 x) y ;;
  c <- num_mul (comp2 x) y ;;
  Ok (mkV a b c).

(** *** ColorLUT *)

(** An element of an array: a Python int for the integer typecodes, a
    float for ['f'] and ['d']. *)
Definition item (t : tcode) (x : Q) : num :=
  if in_fd t then NFlt (Q_to_float x) else NInt (Qfloor x).

(** [ColorLUT.get_color_value_from_index]: the slice of the array, its
    elements as Python numbers. *)
Definition get_color_value_from_index (lut : ColorLUT) (r_idx g_idx b_idx : Z)
    : res Value3D :=
  v <- get_color_value_from_index lut r_idx g_idx b_idx ;;
  let t := typecode (data lut) in
  Ok (mkV (item t (c0 v)) (item t (c1 v)) (item t (c2 v))).

(** The attribute [sample_distance] as [__init__] computes it:
    [self.input_domain / float(self.sample_count-1)]. *)
Definition sample_distance (lut : ColorLUT) : res PrimFloat.float :=
  s <- int_to_float (sample_count lut - 1) ;;
  pyval_truediv (input_domain lut) s.

(** One axis of [get_interpolated_color_value]. *)
Definition axis_coords (lut : ColorLUT) (sd : PrimFloat.float) (v_input : num)
    : res (Z * num) :=
  if eq_pyval v_input (input_domain lut) then
    Ok (sample_count lut - 2, NInt 1)
  else
    q <- truediv v_input sd ;;
    v_0_idx <- py_trunc q ;;
    r <- decimal_mod (Decimal_of_num v_input) (Decimal_of_num (NFlt sd)) ;;
    v_d <- truediv (NFlt (float_of_decimal r)) sd ;;
    Ok (v_0_idx, NFlt v_d).

(** [a*(1.0-d) + b*d] *)
Definition lerp (a b : Value3D) (d : num) : res Value3D :=
  w <- num_sub (NFlt PrimFloat.one) d ;;
  x <- v3_mul a w ;;
  y <- v3_mul b d ;;
  v3_add x y.

(** [ColorLUT.get_interpolated_color_value] *)
Definition get_interpolated_color_value (lut : ColorLUT) (r_input g_input b_input : num)
    : res Value3D :=
  sd <- sample_distance lut ;;
  rc <- axis_coords lut sd r_input ;;
  gc <- axis_coords lut sd g_input ;;
  bc <- axis_coords lut sd b_input ;;
  let '(r_0_idx, r_d) := rc in
  let '(g_0_idx, g_d) := gc in
  let '(b_0_idx, b_d) := bc in
  let r_1_idx := r_0_idx + 1 in
  let g_1_idx := g_0_idx + 1 in
  let b_1_idx := b_0_idx + 1 in
  c_000 <- get_color_value_from_index lut r_0_idx g_0_idx b_0_idx ;;
  c_001 <- get_color_value_from_index lut r_0_idx g_0_idx b_1_idx ;;
  c_010 <- get_color_value_from_index lut r_0_idx g_1_idx b_0_idx ;;
  c_011 <- get_color_value_from_index lut r_0_idx g_1_idx b_1_idx ;;
  c_100 <- get_color_value_from_index lut r_1_idx g_0_idx b_0_idx ;;
  c_101 <- get_color_value_from_index lut r_1_idx g_0_idx b_1_idx ;;
  c_110 <- get_color_value_from_index lut r_1_idx g_1_idx b_0_idx ;;
  c_111 <- get_color_value_from_index lut r_1_idx g_1_idx b_1_idx ;;
  c_00 <- lerp c_000 c_100 r_d ;;
  c_01 <- lerp c_001 c_101 r_d ;;
  c_10 <- lerp c_010 c_110 r_d ;;
  c_11 <- lerp c_011 c_111 r_d ;;
  c_0 <- lerp c_00 c_10 g_d ;;
  c_1 <- lerp c_01 c_11 g_d ;;
  lerp c_0 c_1 b_d.

(** [ColorLUT.get_values_translated]; the chained generator expressions
    compute each value, then scale it, before the next index is drawn. *)
Definition get_values_translated (lut : ColorLUT) (increment_red_fastest : bool)
    (output_sample_count output_domain : pyval)
    : res (list Value3D * option exn) :=
  let interpolate_output := py_ne output_sample_count (PInt (sample_count lut)) in
  let scale_output := py_ne output_domain (input_domain lut) in
  fdom <- float_of_pyval (input_domain lut) ;;
  scaling_factor <- pyval_truediv output_domain fdom ;;
  n <- match output_sample_count with PInt n => Ok n | _ => Err TypeError end ;;
  let output_value (idx : Z * Z * Z) :=
    let '(r, g, b) := idx in
    v <- (if interpolate_output then
            s <- int_to_float (n - 1) ;;
            step <- pyval_truediv (input_domain lut) s ;;
            x <- num_mul (NInt r) (NFlt step) ;;
            y <- num_mul (NInt g) (NFlt step) ;;
            z <- num_mul (NInt b) (NFlt step) ;;
            get_interpolated_color_value lut x y z
          else get_color_value_from_index lut r g b) ;;
    if scale_output then v3_mul v (NFlt scaling_factor) else Ok v in
  Ok (stream_map output_value (indexes increment_red_fastest n)).

(** *** uniform_intervals *)

(** A list comprehension: the values, or the first exception. *)
Fixpoint res_map {A B} (f : A -> res B) (l : list A) : res (list B) :=
  match l with
  | [] => Ok []
  | x :: t => y <- f x ;; ys <- res_map f t ;; Ok (y :: ys)
  end.

(** The literal [0.07]. *)
Definition tolerance : PrimFloat.float := Q_to_float (7 # 100).

(** The loop [for idx in range(1, samples)] over adjacent values. *)
Fixpoint check_spacing (dist : PrimFloat.float) (prev : Z) (rest : list Z) : res unit :=
  match rest with
  | [] => Ok tt
  | v :: t =>
    actual_dist <- int_to_float (v - prev) ;;
    q <- truediv (NFlt actual_dist) dist ;;
    let error_frac := PrimFloat.abs (q - PrimFloat.one)%float in
    if (tolerance <? error_frac)%float then Err (ValueError VE_nonuniform)
    else check_spacing dist v t
  end.

Definition uniform_intervals (end_ : num) (samples : Z) (floating_point : bool)
    : res (list num) :=
  s <- int_to_float (samples - 1) ;;
  dist <- truediv end_ s ;;
  values <- res_map (fun i => num_mul (NFlt dist) (NInt i)) (py_range samples) ;;
  if floating_point then Ok values
  else
    values <- res_map round_num values ;;
    _ <- match values with [] => Ok tt | v :: t => check_spacing dist v t end ;;
    Ok (map NInt values).

(** *** write_3dl *)

(** The text ['{:.0f}'.format(f)] of a float: a sign (kept for zeros) and
    the value rounded half to even, or ['inf'], ['-inf'], ['nan']. *)
Inductive fixed0 :=
| Fixed (neg : bool) (n : Z)
| FixInf (neg : bool)
| FixNaN.

Definition format_float (f : PrimFloat.float) : fixed0 :=
  match FloatOps.Prim2SF f with
  | SpecFloat.S754_zero s => Fixed s 0
  | SpecFloat.S754_finite s m e => Fixed s (round_half_even (SF_value false m e))
  | SpecFloat.S754_infinity s => FixInf s
  | SpecFloat.S754_nan => FixNaN
  end.

(** ['{:.0f}'.format(x)]: an int is converted with [float()] first. *)
Definition format_num (x : num) : res fixed0 :=
  f <- to_float x ;; Ok (format_float f).

(** A line written to the destination file. *)
Inductive line :=
| Header (vs : list num)
| Row (r g b : fixed0).

(** [' '.join('{:.0f}'.format(v) for v in color)] *)
Definition format_row (v : Value3D) : res line :=
  a <- format_num (comp0 v) ;;
  b <- format_num (comp1 v) ;;
  c <- format_num (comp2 v) ;;
  Ok (Row a b c).

(** [ColorLUT.write_3dl]: the lines written, then the exception that stopped
    the writing, if any (a color that cannot be formatted stops it before
    the next color is computed).  Errors raised before [open(dest, 'w')] are
    [Err]. *)
Definition write_3dl (lut : ColorLUT) : res (list line * option exn) :=
  let output_domain := 1023 in
  sample_intervals <- uniform_intervals (NInt output_domain) (sample_count lut) false ;;
  color_value_gen <- get_values_translated lut false
                       (PInt (sample_count lut)) (PInt output_domain) ;;
  let '(colors, e) := color_value_gen in
  let '(rows, e') := stream_map format_row colors in
  Ok (Header sample_intervals :: rows,
      match e' with Some x => Some x | None => e end).

End F64.

(** ** Fixtures *)

(** An 8-bit RGB image without palette, gamma, transparency or alpha. *)
Definition rgb8 : png_meta := mk_meta false false false false false 8.
Definition png64 : decoded_png := mk_png 64 64 (mk_array tc_B (repeat 0%Q (Z.to_nat 12288))) rgb8.

(** An 8-bit greyscale 8x8 image (a level-2 Hald CLUT, 4x4x4 grid). *)
Definition grey8 : png_meta := mk_meta false false false false true 8.
Definition png8_grey : decoded_png :=
  mk_png 8 8 (mk_array tc_B (map (fun i => inject_Z (Z.of_nat i)) (seq 0 64))) grey8.

(** Element kind of an array typecode, and numeric kind of a domain. *)
Definition element_kind (t : tcode) : numkind := if in_fd t then Real else Integral.

Definition domain_kind (v : pyval) : option numkind :=
  match v with PNone => None | PInt _ => Some Integral | PFloat _ => Some Real end.

(** * Proofs *)

Lemma ColorLUT_init_ok d sc dom red lut :
  ColorLUT_init d sc dom red = Ok lut ->
  data lut = d /\ sc = PInt (sample_count lut) /\ input_domain lut = dom /\
  red_increments_fastest lut = red /\ dom <> PNone /\
  2 <= sample_count lut /\
  Z.of_nat (length (items d)) = 3 * sample_count lut ^ 3 /\
  sample_distance lut = (pynum dom / inject_Z (sample_count lut - 1))%Q.
Proof.
  unfold ColorLUT_init.
  destruct (items d) as [|x l] eqn:Hd; [discriminate|].
  destruct sc as [|n|q]; try discriminate.
  assert (Hpos : forall n, Z.of_nat (length (x :: l)) = 3 * n ^ 3 -> 0 < n).
  { intros m Hm. destruct (Z.lt_ge_cases 0 m) as [|Hn]; [assumption|].
    assert (m ^ 3 <= 0).
    { replace (m ^ 3) with (m * (m * m)) by ring.
      apply Z.mul_nonpos_nonneg; nia. }
    cbn [length] in Hm. rewrite Nat2Z.inj_succ in Hm. lia. }
  destruct dom as [|z|q]; try discriminate;
  (destruct (negb _); [discriminate|]);
  (destruct (Z.of_nat (length (x :: l)) =? 3 * n ^ 3) eqn:Hl; [|discriminate]);
  simpl; unfold py_div;
  (destruct (Qeq_bool (inject_Z (n - 1)) 0) eqn:Hz; [discriminate|]);
  intros H; injection H as <-; simpl;
  apply Z.eqb_eq in Hl;
  (assert (n <> 1) by (intros ->; discriminate Hz));
  specialize (Hpos n Hl);
  (repeat split; try (assumption || reflexivity || discriminate || lia)).
Qed.

(** ** C10: the default [output_domain=None] fails at call time *)

(** C10: for every ColorLUT, [get_values_translated] with [output_domain]
    left at [None] raises TypeError when called, whatever the other
    arguments, so it yields no value: [scaling_factor] is computed
    unconditionally. *)
Theorem get_values_translated_default_domain_fails :
  forall lut increment_red_fastest output_sample_count,
    get_values_translated lut increment_red_fastest output_sample_count PNone
    = Err TypeError.
Proof.
  intros lut red osc. unfold get_values_translated.
  destruct (input_domain lut); reflexivity.
Qed.

(** ** C9: greyscale expansion *)

Lemma triple_generator_length d :
  length (triple_generator d) = (3 * length d)%nat.
Proof. induction d as [|v d IH]; simpl; [reflexivity | rewrite IH; lia]. Qed.

Lemma triple_generator_nth d i v :
  nth_error d i = Some v ->
  nth_error (triple_generator d) (3 * i) = Some v /\
  nth_error (triple_generator d) (3 * i + 1) = Some v /\
  nth_error (triple_generator d) (3 * i + 2) = Some v.
Proof.
  revert i. induction d as [|w d IH]; intros [|i] H; simpl in H; try discriminate.
  - injection H as ->. simpl. auto.
  - replace (3 * S i)%nat with (S (S (S (3 * i)))) by lia.
    replace (S (S (S (3 * i))) + 1)%nat with (S (S (S (3 * i + 1)))) by lia.
    replace (S (S (S (3 * i))) + 2)%nat with (S (S (S (3 * i + 2)))) by lia.
    simpl. apply IH, H.
Qed.

(** C9: a greyscale decoded buffer of length N is not rejected for being
    greyscale: [from_haldclut] treats it exactly as the RGB image whose buffer
    is [triple_generator] of it; that buffer has length 3N and its i-th
    triple is (v, v, v) for the i-th input value v. *)
Theorem from_haldclut_greyscale_expansion :
  forall src, greyscale (meta src) = true ->
    from_haldclut src =
      from_haldclut
        (mk_png (width src) (height src)
           (mk_array (typecode (pixels src)) (triple_generator (items (pixels src))))
           (mk_meta (has_palette (meta src)) (has_gamma (meta src))
              (has_transparent (meta src)) (alpha (meta src)) false
              (bitdepth (meta src)))) /\
    length (triple_generator (items (pixels src))) = (3 * length (items (pixels src)))%nat /\
    (forall i v, nth_error (items (pixels src)) i = Some v ->
       nth_error (triple_generator (items (pixels src))) (3 * i) = Some v /\
       nth_error (triple_generator (items (pixels src))) (3 * i + 1) = Some v /\
       nth_error (triple_generator (items (pixels src))) (3 * i + 2) = Some v).
Proof.
  intros [w h [tc px] [pal gam tr al gr bd]] Hg; simpl in Hg; subst gr.
  split; [|split].
  - unfold from_haldclut; simpl. reflexivity.
  - apply triple_generator_length.
  - apply triple_generator_nth.
Qed.

Lemma from_haldclut_greyscale_expansion_witness :
  greyscale (meta png8_grey) = true /\
  (exists lut, from_haldclut png8_grey = Ok lut /\
     items (data lut) = triple_generator (items (pixels png8_grey))) /\
  from_haldclut png8_grey =
      from_haldclut
        (mk_png 8 8 (mk_array tc_B (triple_generator (items (pixels png8_grey))))
           (mk_meta false false false false false 8)).
Proof.
  split; [reflexivity|]. split.
  - eexists. split; [vm_compute; reflexivity | reflexivity].
  - apply (proj1 (from_haldclut_greyscale_expansion png8_grey eq_refl)).
Defined.

(** ** C1: Hald CLUT dimension check *)

(** The [(c+1)**6] test makes the check insensitive to a float root that
    truncates one below the exact floor root [r]. *)
Lemma is_perfect_six_root_c_pred r n :
  0 <= r -> r ^ 6 <= n < (r + 1) ^ 6 ->
  is_perfect_six_root_c (r - 1) n = is_perfect_six_root_c r n.
Proof.
  intros Hr [Hlo Hhi]. unfold is_perfect_six_root_c.
  replace (r - 1 + 1) with r by ring.
  assert (E1 : ((r - 1) ^ 6 =? n) = false).
  { apply Z.eqb_neq. intros E.
    destruct (Z.eq_dec r 0) as [->|Hr0]; [simpl in E; lia|].
    assert ((r - 1) ^ 6 < r ^ 6) by (apply Z.pow_lt_mono_l; lia). lia. }
  assert (E2 : ((r + 1) ^ 6 =? n) = false) by (apply Z.eqb_neq; lia).
  rewrite E1, E2, orb_false_r. reflexivity.
Qed.

Lemma from_haldclut_dims_rejected src :
  (width src <> height src \/ ~ (exists k, k ^ 6 = width src ^ 2)) ->
  exists m, from_haldclut src = Err (ValueError m).
Proof.
  intros Hd. unfold from_haldclut.
  destruct (has_palette (meta src)); [eauto|].
  destruct (has_gamma (meta src)); [eauto|].
  destruct (has_transparent (meta src)); [eauto|].
  destruct (alpha (meta src)); [eauto|].
  destruct (negb _); [eauto|].
  destruct (negb (width src =? height src)) eqn:Ew; [simpl; eauto|].
  destruct (is_perfect_six_root (width src ^ 2)) eqn:Ep; [|simpl; eauto].
  exfalso. apply negb_false_iff, Z.eqb_eq in Ew.
  unfold is_perfect_six_root, is_perfect_six_root_c in Ep.
  apply orb_true_iff in Ep.
  destruct Hd as [Hd|Hd]; [contradiction|apply Hd].
  destruct Ep as [E|E]; apply Z.eqb_eq in E; eauto.
Qed.

(** C1 (amended): [from_haldclut] rejects, with a ValueError, every decoded
    image whose width differs from its height or whose squared width is not a
    perfect sixth power.  A 64x64 image passes the check (64^2 = 4096 = 4^6,
    whether the float sixth root truncates to 3 or to 4): a 64x64 8-bit RGB
    image is accepted, with sample_count 16. *)
Theorem from_haldclut_dimension_check :
  (forall src,
     (width src <> height src \/ ~ (exists k, k ^ 6 = width src ^ 2)) ->
     exists m, from_haldclut src = Err (ValueError m)) /\
  is_perfect_six_root_c 3 (64 ^ 2) = true /\
  is_perfect_six_root_c 4 (64 ^ 2) = true /\
  (exists lut, from_haldclut png64 = Ok lut /\ sample_count lut = 16).
Proof.
  split; [exact from_haldclut_dims_rejected|].
  split; [reflexivity|]. split; [reflexivity|].
  eexists. split; [vm_compute; reflexivity | reflexivity].
Qed.

(** C1, counterexample: a well-formed 64x64 8-bit RGB image is accepted. *)
Lemma from_haldclut_64x64_accepted :
  width png64 = 64 /\ height png64 = 64 /\
  Z.of_nat (length (items (pixels png64))) = 3 * 64 * 64 /\
  exists lut, from_haldclut png64 = Ok lut.
Proof.
  split; [reflexivity|]. split; [reflexivity|]. split; [vm_compute; reflexivity|].
  eexists. vm_compute. reflexivity.
Qed.

(** C1, witness: a 63x64 image is rejected by the general statement. *)
Lemma from_haldclut_dimension_check_witness :
  width (mk_png 63 64 (pixels png64) (meta png64)) <>
    height (mk_png 63 64 (pixels png64) (meta png64)) /\
  exists m, from_haldclut (mk_png 63 64 (pixels png64) (meta png64)) = Err (ValueError m).
Proof.
  split; [cbn; discriminate|].
  apply (proj1 from_haldclut_dimension_check). left. cbn. discriminate.
Defined.

(** ** C5: construction failures *)

Lemma ColorLUT_init_kind d sc dom red lut :
  ColorLUT_init d sc dom red = Ok lut ->
  domain_kind dom = Some (element_kind (typecode d)).
Proof.
  unfold ColorLUT_init.
  destruct (items d); [discriminate|].
  destruct sc; try discriminate.
  destruct dom; try discriminate;
  destruct (typecode d); simpl; intros H; try discriminate; reflexivity.
Qed.


(** C5: [ColorLUT.__init__] raises whenever sample_count is not an int, or
    it is an int n and len(data) <> 3*n^3, or the element kind of the
    typecode differs from the numeric kind of input_domain, or n < 2. *)
Theorem ColorLUT_init_fails_on_invalid :
  forall d sc dom red,
    match sc with
    | PInt n =>
        Z.of_nat (length (items d)) <> 3 * n ^ 3 \/
        domain_kind dom <> Some (element_kind (typecode d)) \/
        n < 2
    | _ => True
    end ->
    exists e, ColorLUT_init d sc dom red = Err e.
Proof.
  intros d sc dom red Hv.
  destruct (ColorLUT_init d sc dom red) as [lut|e] eqn:E; [|eauto].
  exfalso. pose proof (ColorLUT_init_kind _ _ _ _ _ E) as Hk.
  apply ColorLUT_init_ok in E as (Hd & Hsc & Hdom & _ & Hnn & H2 & Hlen & _).
  subst sc d dom. destruct Hv as [H|[H|H]]; lia || contradiction.
Qed.

Lemma ColorLUT_init_fails_on_invalid_witness :
  (Z.of_nat (length [1; 2; 3]%Q) <> 3 * 1 ^ 3 \/
   domain_kind (PInt 255) <> Some (element_kind tc_B) \/ 1 < 2) /\
  (exists e, ColorLUT_init (mk_array tc_B [1; 2; 3]%Q) (PInt 1) (PInt 255) true = Err e).
Proof.
  split; [right; right; lia|].
  apply (ColorLUT_init_fails_on_invalid (mk_array tc_B [1; 2; 3]%Q) (PInt 1) (PInt 255) true).
  right. right. lia.
Defined.

(** ** C2: the flat cube indexer performs no bounds check *)

(** The flat grid offset [r_idx + size*g_idx + size**2*b_idx] used by
    [get_color_value_from_index], after its red/blue swap. *)
Definition flat_offset (lut : ColorLUT) (r_idx g_idx b_idx : Z) : Z :=
  let '(r_idx, b_idx) :=
    if red_increments_fastest lut then (r_idx, b_idx) else (b_idx, r_idx) in
  r_idx + sample_count lut * g_idx + sample_count lut ^ 2 * b_idx.

(** The three samples stored at flat grid offset [k]. *)
Definition triple_at (l : list Q) (k : Z) : Value3D :=
  V3 (nth (Z.to_nat (3 * k)) l 0%Q) (nth (Z.to_nat (3 * k + 1)) l 0%Q)
     (nth (Z.to_nat (3 * k + 2)) l 0%Q).

Lemma get_color_value_from_index_slice lut r g b :
  get_color_value_from_index lut r g b =
  Value3D_of_slice (py_slice (items (data lut))
    (flat_offset lut r g b * 3) (flat_offset lut r g b * 3 + 3)).
Proof. unfold get_color_value_from_index, flat_offset, index_3d. destruct (red_increments_fastest lut); reflexivity. Qed.

Lemma firstn3_skipn (l : list Q) s :
  (s + 3 <= length l)%nat ->
  firstn 3 (skipn s l) = [nth s l 0%Q; nth (s + 1) l 0%Q; nth (s + 2) l 0%Q].
Proof.
  revert l. induction s as [|s IH]; intros l Hl.
  - destruct l as [|a [|b [|c l]]]; simpl in *; try lia. reflexivity.
  - destruct l as [|a l]; simpl in *; [lia|]. apply IH. lia.
Qed.

Lemma slice_value_short (l : list Q) k s :
  (k < 3 \/ length l < s + 3)%nat ->
  Value3D_of_slice (firstn k (skipn s l)) = Err IndexError.
Proof.
  intros H.
  assert (Hlen : (length (firstn k (skipn s l)) < 3)%nat)
    by (rewrite length_firstn, length_skipn; lia).
  destruct (firstn k (skipn s l)) as [|a [|b [|c t]]]; simpl in *;
    reflexivity || lia.
Qed.

Lemma slice_value_at (l : list Q) (k s : Z) :
  s = 3 * k -> 0 <= s -> s + 3 <= Z.of_nat (length l) ->
  Value3D_of_slice (firstn 3 (skipn (Z.to_nat s) l)) = Ok (triple_at l k).
Proof.
  intros -> Hs Hl. rewrite firstn3_skipn by lia. unfold triple_at.
  replace (Z.to_nat (3 * k + 1)) with (Z.to_nat (3 * k) + 1)%nat by lia.
  replace (Z.to_nat (3 * k + 2)) with (Z.to_nat (3 * k) + 2)%nat by lia.
  reflexivity.
Qed.

(** C2 (amended): [get_color_value_from_index] does no bounds check.  On a
    buffer of length 3*n^3 it reads [data[3o:3o+3]] for the flat offset
    [o = r + n*g + n^2*b] ([r] and [b] swapped when blue is fastest): when
    [0 <= o < n^3] or [-n^3 <= o <= -2] it returns the samples at offset
    [o mod n^3] (Python's negative slice indices wrap), and otherwise it
    raises IndexError, from formatting its debug message with fewer than
    three components. *)
Theorem get_color_value_from_index_no_bounds_check :
  forall lut r g b,
    let n := sample_count lut in
    let o := flat_offset lut r g b in
    Z.of_nat (length (items (data lut))) = 3 * n ^ 3 ->
    ((0 <= o < n ^ 3 \/ - n ^ 3 <= o <= -2) ->
       get_color_value_from_index lut r g b =
       Ok (triple_at (items (data lut)) (o mod n ^ 3))) /\
    (~ (0 <= o < n ^ 3 \/ - n ^ 3 <= o <= -2) ->
       get_color_value_from_index lut r g b = Err IndexError).
Proof.
  intros lut r g b n o Hlen.
  rewrite get_color_value_from_index_slice. fold o.
  unfold py_slice, py_slice_index. rewrite Hlen.
  set (l := items (data lut)) in *. fold n in Hlen |- *.
  assert (Hn3 : 0 <= n ^ 3) by lia.
  split.
  - intros [H|H].
    + rewrite Z.mod_small by lia.
      replace (o * 3 <? 0) with false by (symmetry; apply Z.ltb_ge; lia).
      replace (o * 3 + 3 <? 0) with false by (symmetry; apply Z.ltb_ge; lia).
      replace (Z.to_nat (Z.min (o * 3 + 3) (3 * n ^ 3) - Z.min (o * 3) (3 * n ^ 3)))
        with 3%nat by lia.
      apply slice_value_at; lia.
    + replace (o mod n ^ 3) with (o + n ^ 3)
        by (apply Z.mod_unique with (q := -1); lia).
      replace (o * 3 <? 0) with true by (symmetry; apply Z.ltb_lt; lia).
      replace (o * 3 + 3 <? 0) with true by (symmetry; apply Z.ltb_lt; lia).
      replace (Z.to_nat (Z.max 0 (o * 3 + 3 + 3 * n ^ 3) - Z.max 0 (o * 3 + 3 * n ^ 3)))
        with 3%nat by lia.
      replace (Z.max 0 (o * 3 + 3 * n ^ 3)) with (3 * (o + n ^ 3)) by lia.
      apply slice_value_at; lia.
  - intros H. apply slice_value_short.
    destruct (o * 3 <? 0) eqn:E1; destruct (o * 3 + 3 <? 0) eqn:E2;
      rewrite ?Z.ltb_lt, ?Z.ltb_ge in E1, E2; lia.
Qed.

(** C2, counterexample: on a 2x2x2 grid, the out-of-range coordinate
    (2, 0, 0) reads grid point (0, 1, 0) without error. *)
Definition lut2_ramp : ColorLUT :=
  mk_lut (mk_array tc_B (map (fun i => inject_Z (Z.of_nat i)) (seq 0 24)))
         2 (PInt 255) true Integral (255 # 1).

Lemma index_out_of_range_not_rejected :
  Z.of_nat (length (items (data lut2_ramp))) = 3 * sample_count lut2_ramp ^ 3 /\
  sample_count lut2_ramp = 2 /\
  get_color_value_from_index lut2_ramp 2 0 0 = Ok (V3 6 7 8) /\
  get_color_value_from_index lut2_ramp 0 1 0 = Ok (V3 6 7 8).
Proof. vm_compute. repeat split; reflexivity. Qed.

Lemma get_color_value_from_index_no_bounds_check_witness :
  Z.of_nat (length (items (data lut2_ramp))) = 3 * sample_count lut2_ramp ^ 3 /\
  (0 <= flat_offset lut2_ramp 2 0 0 < sample_count lut2_ramp ^ 3) /\
  get_color_value_from_index lut2_ramp 2 0 0 =
    Ok (triple_at (items (data lut2_ramp))
          (flat_offset lut2_ramp 2 0 0 mod sample_count lut2_ramp ^ 3)).
Proof.
  assert (Hl : Z.of_nat (length (items (data lut2_ramp))) = 3 * sample_count lut2_ramp ^ 3)
    by reflexivity.
  assert (Ho : 0 <= flat_offset lut2_ramp 2 0 0 < sample_count lut2_ramp ^ 3)
    by (unfold flat_offset; simpl; lia).
  split; [exact Hl|]. split; [exact Ho|].
  apply (proj1 (get_color_value_from_index_no_bounds_check lut2_ramp 2 0 0 Hl)).
  left. exact Ho.
Defined.

(** ** C4: resampling a LUT to its own grid and domain *)


Lemma map_flat_map {A B C} (f : B -> C) (g : A -> list B) l :
  map f (flat_map g l) = flat_map (fun x => map f (g x)) l.
Proof. induction l as [|x l IH]; simpl; [reflexivity|]. rewrite map_app, IH. reflexivity. Qed.

Lemma flat_map_map {A B C} (g : B -> list C) (h : A -> B) l :
  flat_map g (map h l) = flat_map (fun x => g (h x)) l.
Proof. induction l as [|x l IH]; simpl; [reflexivity|]. rewrite IH. reflexivity. Qed.

Lemma map_add_seq c N : map (fun z => c + z)%nat (seq 0 N) = seq c N.
Proof.
  revert c. induction N as [|N IH]; intros c; [reflexivity|].
  rewrite !seq_S, map_app, IH. reflexivity.
Qed.

Lemma seq_block base N K :
  flat_map (fun y => map (fun z => base + z + N * y)%nat (seq 0 N)) (seq 0 K)
  = seq base (N * K).
Proof.
  induction K as [|K IH]; [simpl; rewrite Nat.mul_0_r; reflexivity|].
  rewrite seq_S, flat_map_app, IH. simpl. rewrite app_nil_r.
  replace (N * S K)%nat with (N * K + N)%nat by lia.
  rewrite seq_app. f_equal.
  rewrite <- (map_add_seq (base + N * K) N). apply map_ext. intros z. lia.
Qed.

Lemma seq_cube N M :
  flat_map (fun x => flat_map (fun y => map (fun z => z + N * y + N * N * x)%nat
    (seq 0 N)) (seq 0 N)) (seq 0 M) = seq 0 (N * N * M).
Proof.
  induction M as [|M IH]; [simpl; rewrite Nat.mul_0_r; reflexivity|].
  rewrite seq_S, flat_map_app, IH. simpl. rewrite app_nil_r.
  replace (N * N * S M)%nat with (N * N * M + N * N)%nat by lia.
  rewrite seq_app. f_equal.
  rewrite <- (seq_block (0 + N * N * M) N N).
  apply flat_map_ext. intros y. apply map_ext. intros z. lia.
Qed.


Lemma stream_map_all_ok {A B} (f : A -> res B) (h : A -> B) l :
  (forall x, In x l -> f x = Ok (h x)) -> stream_map f l = (map h l, None).
Proof.
  induction l as [|x l IH]; intros H; simpl; [reflexivity|].
  rewrite (H x (or_introl eq_refl)), IH by (intros y Hy; apply H; right; exact Hy).
  reflexivity.
Qed.


Lemma get_color_value_in_buffer lut r g b :
  Z.of_nat (length (items (data lut))) = 3 * sample_count lut ^ 3 ->
  0 <= flat_offset lut r g b < sample_count lut ^ 3 ->
  get_color_value_from_index lut r g b =
  Ok (triple_at (items (data lut)) (flat_offset lut r g b)).
Proof.
  intros Hlen H.
  rewrite get_color_value_from_index_slice.
  set (o := flat_offset lut r g b) in *.
  unfold py_slice, py_slice_index. rewrite Hlen.
  replace (o * 3 <? 0) with false by (symmetry; apply Z.ltb_ge; lia).
  replace (o * 3 + 3 <? 0) with false by (symmetry; apply Z.ltb_ge; lia).
  replace (Z.to_nat (Z.min (o * 3 + 3) (3 * sample_count lut ^ 3)
                     - Z.min (o * 3) (3 * sample_count lut ^ 3)))
    with 3%nat by lia.
  apply slice_value_at; lia.
Qed.

Lemma Qeq_bool_same q : Qeq_bool q q = true.
Proof. apply Qeq_bool_iff. reflexivity. Qed.

Lemma py_ne_same v : py_ne v v = false.
Proof. destruct v; simpl; rewrite ?Qeq_bool_same; reflexivity. Qed.

Lemma nat_cube_Z n : 0 <= n ->
  Z.of_nat (Z.to_nat n * Z.to_nat n * Z.to_nat n) = n ^ 3.
Proof. intros Hn. rewrite !Nat2Z.inj_mul, Z2Nat.id by exact Hn. ring. Qed.


Definition ramp24 : pyarray := mk_array tc_B (map (fun i => inject_Z (Z.of_nat i)) (seq 0 24)).

(** The LUT the constructor builds from [ramp24], or [lut2_ramp] if it fails. *)
Definition lut_of (r : res ColorLUT) : ColorLUT :=
  match r with Ok l => l | Err _ => lut2_ramp end.

Definition lut_blue255 : ColorLUT := lut_of (ColorLUT_init ramp24 (PInt 2) (PInt 255) false).

Lemma lut_blue255_init : ColorLUT_init ramp24 (PInt 2) (PInt 255) false = Ok lut_blue255.
Proof. vm_compute. reflexivity. Qed.




(** ** Grid offsets *)

Lemma v3_eq_refl a : v3_eq a a.
Proof. unfold v3_eq. repeat split; reflexivity. Qed.

Lemma flat_offset_range lut x y z :
  let n := sample_count lut in
  0 <= x < n -> 0 <= y < n -> 0 <= z < n -> 0 <= flat_offset lut x y z < n ^ 3.
Proof.
  intros n Hx Hy Hz. unfold flat_offset. fold n.
  replace (n ^ 3) with (n * n * n) by ring. replace (n ^ 2) with (n * n) by ring.
  destruct (red_increments_fastest lut); nia.
Qed.

(** ** C3: interpolation at the grid points *)

(** The input coordinate [i*self.sample_distance] of grid index [i]. *)
Definition grid_input (lut : ColorLUT) (i : Z) : res F64.num :=
  sd <- F64.sample_distance lut ;; F64.num_mul (F64.NInt i) (F64.NFlt sd).

(** [get_interpolated_color_value] at the grid point [(i, j, k)]. *)
Definition interpolate_at_grid (lut : ColorLUT) (i j k : Z) : res F64.Value3D :=
  x <- grid_input lut i ;; y <- grid_input lut j ;; z <- grid_input lut k ;;
  F64.get_interpolated_color_value lut x y z.

(** [array('d', [float(k // 3) for k in range(3*n**3)])]: every grid point
    stores its flat offset in all three components. *)
Definition ramp_d (n : nat) : pyarray :=
  mk_array tc_d (map (fun k => inject_Z (Z.of_nat k / 3)) (seq 0 (3 * n * n * n))).

(** [array('B', [0] * (3*n**3))] *)
Definition zeros_B (n : nat) : pyarray := mk_array tc_B (repeat 0%Q (3 * n * n * n)).

Definition lut_ramp11 : ColorLUT :=
  lut_of (ColorLUT_init (ramp_d 11) (PInt 11) (PFloat 1) true).
Definition lut_zeros12 : ColorLUT :=
  lut_of (ColorLUT_init (zeros_B 12) (PInt 12) (PInt 255) true).

Definition f64_triple (q : Q) : F64.Value3D :=
  F64.mkV (F64.NFlt (F64.Q_to_float q)) (F64.NFlt (F64.Q_to_float q))
          (F64.NFlt (F64.Q_to_float q)).

(** C3 (a divergence of the code from the claim): for the LUT of 11 samples
    per axis over input_domain 1.0 whose grid point (i, j, k) stores
    i + 11j + 121k, [get_interpolated_color_value] at grid point (5, 5, 5),
    whose inputs are 5*0.1 = 0.5, returns about 798, the sample of (6, 6, 6),
    instead of the stored 665: [trunc(0.5/0.1)] gives index 5 while the
    Decimal remainder [0.5 % 0.1] is nearly 0.1, so the fraction is nearly 1.
    For the zero LUT of 12 samples over input_domain 255, the input of grid
    point 11 is 11*fl(255/11) = 255.00000000000003, which misses the clamp
    [v_in == input_domain], and the call raises IndexError. *)
Theorem get_interpolated_color_value_off_grid :
  ColorLUT_init (ramp_d 11) (PInt 11) (PFloat 1) true = Ok lut_ramp11 /\
  F64.get_color_value_from_index lut_ramp11 5 5 5 = Ok (f64_triple 665) /\
  F64.get_color_value_from_index lut_ramp11 6 6 6 = Ok (f64_triple 798) /\
  interpolate_at_grid lut_ramp11 5 5 5 =
    Ok (f64_triple (7019282231721983 # 8796093022208)) /\
  ColorLUT_init (zeros_B 12) (PInt 12) (PInt 255) true = Ok lut_zeros12 /\
  grid_input lut_zeros12 11 =
    Ok (F64.NFlt (F64.Q_to_float (8972014882652161 # 35184372088832))) /\
  interpolate_at_grid lut_zeros12 11 11 11 = Err IndexError.
Proof. repeat split; vm_compute; reflexivity. Qed.

(** ** C7: domain scaling *)






Lemma py_ne_false v w :
  v <> PNone -> w <> PNone -> py_ne v w = false -> (pynum v == pynum w)%Q.
Proof.
  intros Hv Hw. destruct v; [contradiction| |]; destruct w; try contradiction;
  unfold py_ne; rewrite negb_false_iff, Qeq_bool_iff; tauto.
Qed.




(** ** Binary64 lemmas *)

(** Facts about the binary64 operations: [float(z)] of an int of at most 53
    bits is exact and normal, the quotient of two such ints is finite and
    nonzero, and its product with another one stays far from overflow.
    They rest on the specification of the primitive floats
    ([FloatAxioms]: each operation rounds as [SpecFloat] does). *)


Module B64.

Import PrimFloat.PrimFloatNotations.

Local Abbreviation D := SpecFloat.Zdigits2.







































End B64.

Import B64.
Import PrimFloat.PrimFloatNotations.

(** ** C6: uniform_intervals in integral mode *)







(** ** C8: write_3dl *)


Lemma flat_map_ext_in {A B} (f g : A -> list B) l :
  (forall x, In x l -> f x = g x) -> flat_map f l = flat_map g l.
Proof.
  induction l as [|x l IH]; intros H; simpl; [reflexivity|].
  rewrite H by (left; reflexivity). rewrite IH by (intros y Hy; apply H; right; exact Hy).
  reflexivity.
Qed.

Lemma decode_cube n x y z :
  0 <= x -> 0 <= y < n -> 0 <= z < n ->
  ((z + n * y + n * n * x) / (n * n), ((z + n * y + n * n * x) / n) mod n,
   (z + n * y + n * n * x) mod n) = (x, y, z).
Proof.
  intros Hx Hy Hz.
  assert (E1 : (z + n * y + n * n * x) / (n * n) = x)
    by (symmetry; apply Z.div_unique with (r := z + n * y); nia).
  assert (E2 : (z + n * y + n * n * x) / n = y + n * x)
    by (symmetry; apply Z.div_unique with (r := z); nia).
  assert (E3 : (y + n * x) mod n = y)
    by (symmetry; apply Z.mod_unique with (q := x); lia).
  assert (E4 : (z + n * y + n * n * x) mod n = z)
    by (symmetry; apply Z.mod_unique with (q := y + n * x); nia).
  rewrite E1, E2, E3, E4. reflexivity.
Qed.


Lemma in_py_range n x : In x (py_range n) -> 0 <= x < n.
Proof. unfold py_range. intros H. apply in_map_iff in H as (k & <- & Hk). apply in_seq in Hk. lia. Qed.

Lemma in_indexes red n r g b :
  In (r, g, b) (indexes red n) -> 0 <= r < n /\ 0 <= g < n /\ 0 <= b < n.
Proof.
  unfold indexes. destruct red; intros H;
  apply in_flat_map in H as (x & Hx & H); apply in_flat_map in H as (y & Hy & H);
  apply in_map_iff in H as (z & E & Hz); injection E as <- <- <-;
  apply in_py_range in Hx, Hy, Hz; auto.
Qed.









Lemma ColorLUT_init_intro x l tc n D red :
  in_bBhHiIlL tc = true -> in_fd tc = false ->
  Z.of_nat (length (x :: l)) = 3 * n ^ 3 -> n <> 1 ->
  ColorLUT_init (mk_array tc (x :: l)) (PInt n) (PInt D) red =
  Ok (mk_lut (mk_array tc (x :: l)) n (PInt D) red Integral (inject_Z D / inject_Z (n - 1))).
Proof.
  intros Ht Hf Hl Hn. unfold ColorLUT_init. cbn [items typecode].
  rewrite Ht, Hf. cbn [negb]. rewrite Hl, Z.eqb_refl. cbn [negb bind py_float].
  unfold py_div.
  destruct (Qeq_bool (inject_Z (n - 1)) 0) eqn:E.
  - apply Qeq_bool_iff in E. change 0%Q with (inject_Z 0) in E.
    rewrite inject_Z_injective in E. lia.
  - reflexivity.
Qed.



(** * Further properties of the code *)

(** ** Integer roots *)

Lemma iroot_search_spec fuel k n lo hi :
  1 <= k -> 0 <= lo < hi -> lo ^ k <= n < hi ^ k ->
  hi - lo <= 2 ^ Z.of_nat fuel ->
  let r := iroot_search fuel k n lo hi in
  0 <= r /\ r ^ k <= n < (r + 1) ^ k.
Proof.
  revert lo hi. induction fuel as [|f IH]; intros lo hi Hk Hlh Hn Hf; cbn [iroot_search].
  - simpl in Hf. replace (lo + 1) with hi by lia. lia.
  - destruct (hi - lo <=? 1) eqn:E.
    + apply Z.leb_le in E. replace (lo + 1) with hi by lia. lia.
    + apply Z.leb_gt in E.
      rewrite Nat2Z.inj_succ, Z.pow_succ_r in Hf by lia.
      set (m := (lo + hi) / 2).
      assert (Hm : lo + hi = 2 * m + (lo + hi) mod 2) by (apply Z.div_mod; lia).
      assert (Hb := Z.mod_pos_bound (lo + hi) 2 ltac:(lia)).
      destruct (m ^ k <=? n) eqn:Em.
      * apply Z.leb_le in Em. apply IH; lia.
      * apply Z.leb_gt in Em. apply IH; lia.
Qed.

Lemma iroot_spec k n :
  1 <= k -> 0 <= n -> 0 <= iroot k n /\ iroot k n ^ k <= n < (iroot k n + 1) ^ k.
Proof.
  intros Hk Hn. unfold iroot. apply iroot_search_spec; [lia | lia | split | ].
  - rewrite Z.pow_0_l by lia. lia.
  - assert (H1 : (n + 1) ^ 1 <= (n + 1) ^ k) by (apply Z.pow_le_mono_r; lia). lia.
  - rewrite Nat2Z.inj_succ, Z2Nat.id by (apply Z.log2_nonneg).
    destruct (Z.log2_spec (n + 1) ltac:(lia)) as [_ H]. rewrite Z.pow_succ_r in H |- *
      by (apply Z.log2_nonneg). lia.
Qed.

Lemma root_unique k n r s :
  1 <= k -> 0 <= r -> 0 <= s ->
  r ^ k <= n < (r + 1) ^ k -> s ^ k <= n < (s + 1) ^ k -> r = s.
Proof.
  intros Hk Hr Hs [Hr1 Hr2] [Hs1 Hs2].
  destruct (Z.lt_trichotomy r s) as [H|[H|H]]; [|exact H|].
  - assert ((r + 1) ^ k <= s ^ k) by (apply Z.pow_le_mono_l; lia). lia.
  - assert ((s + 1) ^ k <= r ^ k) by (apply Z.pow_le_mono_l; lia). lia.
Qed.

Lemma iroot_pow k a : 1 <= k -> 0 <= a -> iroot k (a ^ k) = a.
Proof.
  intros Hk Ha.
  assert (Hn : 0 <= a ^ k) by (apply Z.pow_nonneg; exact Ha).
  destruct (iroot_spec k (a ^ k) Hk Hn) as (H0 & H1).
  apply (root_unique k (a ^ k)); try assumption.
  split; [lia|]. apply Z.pow_lt_mono_l; lia.
Qed.

Lemma is_perfect_six_root_iff n :
  0 <= n -> is_perfect_six_root n = true <-> exists k, k ^ 6 = n.
Proof.
  intros Hn. unfold is_perfect_six_root, is_perfect_six_root_c.
  rewrite orb_true_iff, !Z.eqb_eq. split.
  - intros [H|H]; eauto.
  - intros (k & <-).
    assert (Ha : Z.abs k ^ 6 = k ^ 6).
    { rewrite <- Z.abs_pow. apply Z.abs_eq. apply Z.pow_even_nonneg. exists 3. reflexivity. }
    rewrite <- Ha, iroot_pow by lia. left. reflexivity.
Qed.

Lemma round_cbrt_pow6 k : 0 <= k -> round_cbrt (k ^ 6) = k ^ 2.
Proof.
  intros Hk. unfold round_cbrt.
  replace (k ^ 6) with ((k ^ 2) ^ 3) by ring.
  rewrite iroot_pow by (lia || (apply Z.pow_nonneg; lia)).
  replace ((2 * k ^ 2 + 1) ^ 3 <=? 8 * (k ^ 2) ^ 3) with false; [reflexivity|].
  symmetry. apply Z.leb_gt. nia.
Qed.

(** ** from_haldclut: the images it accepts *)

(** The buffer [from_haldclut] hands to the constructor. *)
Definition haldclut_data (src : decoded_png) : pyarray :=
  if greyscale (meta src)
  then mk_array (typecode (pixels src)) (triple_generator (items (pixels src)))
  else pixels src.

Lemma from_haldclut_unfold src :
  from_haldclut src =
  if has_palette (meta src) then Err (ValueError VE_palette)
  else if has_gamma (meta src) then Err (ValueError VE_gamma)
  else if has_transparent (meta src) then Err (ValueError VE_transparent)
  else if alpha (meta src) then Err (ValueError VE_alpha)
  else if negb ((bitdepth (meta src) =? 8) || (bitdepth (meta src) =? 16))
  then Err (ValueError VE_bitdepth)
  else if negb (width src =? height src) || negb (is_perfect_six_root (width src ^ 2))
  then Err (ValueError VE_hald_dims)
  else ColorLUT_init (haldclut_data src) (PInt (round_cbrt (width src ^ 2)))
         (PInt (2 ^ bitdepth (meta src) - 1)) true.
Proof. reflexivity. Qed.

Lemma haldclut_data_length src :
  length (items (haldclut_data src)) =
  ((if greyscale (meta src) then 3 else 1) * length (items (pixels src)))%nat.
Proof.
  unfold haldclut_data. destruct (greyscale (meta src)); simpl;
    [apply triple_generator_length | lia].
Qed.

Lemma abs_of_square_eq w c : 0 <= c -> w ^ 2 = c ^ 2 -> Z.abs w = c.
Proof.
  intros Hc H. apply (Z.pow_inj_l _ _ 2); [lia | lia | lia |].
  rewrite <- H. destruct (Z.abs_spec w) as [[_ ->]|[_ ->]]; ring.
Qed.

(** Every image [from_haldclut] accepts has no palette, gamma,
    transparent color or alpha, bit depth 8 or 16, and square dimensions
    |w| = k^3 for some k >= 2, with w^2 pixels (one sample each when
    greyscale, three otherwise); the LUT built from it has sample_count k^2,
    input_domain 2^bitdepth - 1, red incrementing fastest and the (expanded)
    pixel buffer as data. *)
Theorem from_haldclut_accepted_shape :
  forall src lut, from_haldclut src = Ok lut ->
    has_palette (meta src) = false /\ has_gamma (meta src) = false /\
    has_transparent (meta src) = false /\ alpha (meta src) = false /\
    (bitdepth (meta src) = 8 \/ bitdepth (meta src) = 16) /\
    width src = height src /\
    Z.of_nat (length (items (pixels src))) =
      (if greyscale (meta src) then 1 else 3) * width src ^ 2 /\
    exists k, 2 <= k /\ Z.abs (width src) = k ^ 3 /\
      sample_count lut = k ^ 2 /\
      input_domain lut = PInt (2 ^ bitdepth (meta src) - 1) /\
      red_increments_fastest lut = true /\
      data lut = haldclut_data src.
Proof.
  intros src lut H. rewrite from_haldclut_unfold in H.
  destruct (has_palette (meta src)); [discriminate|].
  destruct (has_gamma (meta src)); [discriminate|].
  destruct (has_transparent (meta src)); [discriminate|].
  destruct (alpha (meta src)); [discriminate|].
  destruct ((bitdepth (meta src) =? 8) || (bitdepth (meta src) =? 16)) eqn:Ebd;
    [|discriminate].
  destruct (width src =? height src) eqn:Ewh; [|discriminate].
  destruct (is_perfect_six_root (width src ^ 2)) eqn:E6; [|discriminate].
  cbn [negb orb] in H.
  apply orb_true_iff in Ebd. rewrite !Z.eqb_eq in Ebd. apply Z.eqb_eq in Ewh.
  apply is_perfect_six_root_iff in E6; [|apply Z.pow_even_nonneg; exists 1; reflexivity].
  destruct E6 as (j & Hj).
  set (k := Z.abs j).
  assert (Hk6 : k ^ 6 = width src ^ 2).
  { rewrite <- Hj. unfold k. rewrite <- Z.abs_pow. apply Z.abs_eq.
    apply Z.pow_even_nonneg. exists 3. reflexivity. }
  rewrite <- Hk6, round_cbrt_pow6 in H by lia.
  destruct (ColorLUT_init_ok _ _ _ _ _ H)
    as (Hd & Hsc & Hid & Hred & _ & H2 & Hlen & _).
  injection Hsc as Hsc.
  rewrite haldclut_data_length, Nat2Z.inj_mul, <- Hsc in Hlen.
  assert (Hk2 : 2 <= k) by (assert (0 <= k) by lia; nia).
  repeat split; try reflexivity; try assumption.
  - replace ((k ^ 2) ^ 3) with (k ^ 6) in Hlen by ring. rewrite <- Hk6.
    destruct (greyscale (meta src)); cbn [Z.of_nat Pos.of_succ_nat] in Hlen; lia.
  - exists k. split; [exact Hk2|]. split.
    + apply abs_of_square_eq; [lia|]. rewrite <- Hk6. ring.
    + auto.
Qed.

Lemma from_haldclut_accepted_shape_witness :
  from_haldclut png8_grey = Ok (lut_of (from_haldclut png8_grey)) /\
  has_palette (meta png8_grey) = false /\ has_gamma (meta png8_grey) = false /\
  has_transparent (meta png8_grey) = false /\ alpha (meta png8_grey) = false /\
  (bitdepth (meta png8_grey) = 8 \/ bitdepth (meta png8_grey) = 16) /\
  width png8_grey = height png8_grey /\
  Z.of_nat (length (items (pixels png8_grey))) =
    (if greyscale (meta png8_grey) then 1 else 3) * width png8_grey ^ 2 /\
  exists k, 2 <= k /\ Z.abs (width png8_grey) = k ^ 3 /\
    sample_count (lut_of (from_haldclut png8_grey)) = k ^ 2 /\
    input_domain (lut_of (from_haldclut png8_grey)) = PInt (2 ^ bitdepth (meta png8_grey) - 1) /\
    red_increments_fastest (lut_of (from_haldclut png8_grey)) = true /\
    data (lut_of (from_haldclut png8_grey)) = haldclut_data png8_grey.
Proof.
  assert (H : from_haldclut png8_grey = Ok (lut_of (from_haldclut png8_grey)))
    by (vm_compute; reflexivity).
  split; [exact H|]. apply (from_haldclut_accepted_shape png8_grey _ H).
Defined.

Lemma in_bBhHiIlL_not_fd tc : in_bBhHiIlL tc = true -> in_fd tc = false.
Proof. destruct tc; simpl; congruence. Qed.

Lemma hald_image_lut src k :
    has_palette (meta src) = false -> has_gamma (meta src) = false ->
    has_transparent (meta src) = false -> alpha (meta src) = false ->
    (bitdepth (meta src) = 8 \/ bitdepth (meta src) = 16) ->
    in_bBhHiIlL (typecode (pixels src)) = true ->
    2 <= k -> width src = k ^ 3 -> height src = k ^ 3 ->
    Z.of_nat (length (items (pixels src))) =
      (if greyscale (meta src) then 1 else 3) * k ^ 6 ->
    from_haldclut src =
      ColorLUT_init (haldclut_data src) (PInt (k ^ 2))
        (PInt (2 ^ bitdepth (meta src) - 1)) true /\
    ColorLUT_init (haldclut_data src) (PInt (k ^ 2))
        (PInt (2 ^ bitdepth (meta src) - 1)) true =
      Ok (mk_lut (haldclut_data src) (k ^ 2) (PInt (2 ^ bitdepth (meta src) - 1)) true
            Integral (inject_Z (2 ^ bitdepth (meta src) - 1) / inject_Z (k ^ 2 - 1))).
Proof.
  intros Hp Hg Ht Ha Hbd Htc Hk Hw Hh Hlen.
  split.
  { rewrite from_haldclut_unfold, Hp, Hg, Ht, Ha.
    replace ((bitdepth (meta src) =? 8) || (bitdepth (meta src) =? 16)) with true
      by (symmetry; apply orb_true_iff; rewrite !Z.eqb_eq; exact Hbd).
    rewrite Hw, Hh, Z.eqb_refl.
    replace ((k ^ 3) ^ 2) with (k ^ 6) by ring.
    replace (is_perfect_six_root (k ^ 6)) with true
      by (symmetry; apply is_perfect_six_root_iff; [apply Z.pow_nonneg; lia | eauto]).
    cbn [negb orb]. rewrite round_cbrt_pow6 by lia. reflexivity. }
  assert (HL := haldclut_data_length src).
  assert (Htc' : typecode (haldclut_data src) = typecode (pixels src))
    by (unfold haldclut_data; destruct (greyscale (meta src)); reflexivity).
  destruct (haldclut_data src) as [tc [|x l]] eqn:Ed; cbn [items typecode] in HL, Htc'.
  - exfalso. assert (0 < k ^ 6) by (apply Z.pow_pos_nonneg; lia).
    destruct (greyscale (meta src)); cbn in HL; lia.
  - subst tc. apply ColorLUT_init_intro.
    + exact Htc.
    + apply in_bBhHiIlL_not_fd, Htc.
    + rewrite HL, Nat2Z.inj_mul.
      replace ((k ^ 2) ^ 3) with (k ^ 6) by ring.
      destruct (greyscale (meta src)); cbn [Z.of_nat Pos.of_succ_nat]; lia.
    + nia.
Qed.

(** Conversely, a square image of side k^3 (k >= 2) without palette,
    gamma, transparent color or alpha, of bit depth 8 or 16, decoded to an
    integer array of k^6 pixels (one sample each when greyscale, three
    otherwise), is accepted: the LUT has sample_count k^2, input_domain
    2^bitdepth - 1, red incrementing fastest, and the (expanded) pixels. *)
Theorem from_haldclut_accepts_hald_images :
  forall src k,
    has_palette (meta src) = false -> has_gamma (meta src) = false ->
    has_transparent (meta src) = false -> alpha (meta src) = false ->
    (bitdepth (meta src) = 8 \/ bitdepth (meta src) = 16) ->
    in_bBhHiIlL (typecode (pixels src)) = true ->
    2 <= k -> width src = k ^ 3 -> height src = k ^ 3 ->
    Z.of_nat (length (items (pixels src))) =
      (if greyscale (meta src) then 1 else 3) * k ^ 6 ->
    from_haldclut src =
      Ok (mk_lut (haldclut_data src) (k ^ 2) (PInt (2 ^ bitdepth (meta src) - 1)) true
            Integral (inject_Z (2 ^ bitdepth (meta src) - 1) / inject_Z (k ^ 2 - 1))).
Proof.
  intros src k Hp Hg Ht Ha Hbd Htc Hk Hw Hh Hlen.
  destruct (hald_image_lut src k Hp Hg Ht Ha Hbd Htc Hk Hw Hh Hlen) as [E1 E2].
  rewrite E1. exact E2.
Qed.

Lemma from_haldclut_accepts_hald_images_witness :
  from_haldclut png8_grey =
    Ok (mk_lut (haldclut_data png8_grey) (2 ^ 2) (PInt (2 ^ bitdepth (meta png8_grey) - 1))
          true Integral
          (inject_Z (2 ^ bitdepth (meta png8_grey) - 1) / inject_Z (2 ^ 2 - 1))).
Proof.
  apply (from_haldclut_accepts_hald_images png8_grey 2);
    try reflexivity; try lia.
  left. reflexivity.
Defined.

(** A 1x1 image passes the dimension check (1 = 1^6) and gets
    sample_count 1, so a well-formed 1x1 image (no palette, gamma,
    transparent color or alpha, bit depth 8 or 16, an integer array with one
    pixel) makes [from_haldclut] raise ZeroDivisionError in the constructor
    rather than a ValueError. *)
Theorem from_haldclut_1x1_zero_division :
  forall src,
    has_palette (meta src) = false -> has_gamma (meta src) = false ->
    has_transparent (meta src) = false -> alpha (meta src) = false ->
    (bitdepth (meta src) = 8 \/ bitdepth (meta src) = 16) ->
    in_bBhHiIlL (typecode (pixels src)) = true ->
    width src = 1 -> height src = 1 ->
    Z.of_nat (length (items (pixels src))) = (if greyscale (meta src) then 1 else 3) ->
    from_haldclut src = Err ZeroDivisionError.
Proof.
  intros src Hp Hg Ht Ha Hbd Htc Hw Hh Hlen.
  rewrite from_haldclut_unfold, Hp, Hg, Ht, Ha.
  replace ((bitdepth (meta src) =? 8) || (bitdepth (meta src) =? 16)) with true
    by (symmetry; apply orb_true_iff; rewrite !Z.eqb_eq; exact Hbd).
  rewrite Hw, Hh. cbn -[ColorLUT_init haldclut_data].
  change (is_perfect_six_root 1) with true. change (round_cbrt 1) with 1. cbn [negb].
  assert (HL := haldclut_data_length src).
  assert (Htc' : typecode (haldclut_data src) = typecode (pixels src))
    by (unfold haldclut_data; destruct (greyscale (meta src)); reflexivity).
  unfold ColorLUT_init.
  destruct (haldclut_data src) as [tc [|x l]] eqn:Ed; cbn [items typecode] in HL, Htc' |- *.
  - exfalso. destruct (greyscale (meta src)); cbn in HL; lia.
  - subst tc. rewrite Htc. cbn [negb].
    replace (Z.of_nat (length (x :: l)) =? 3 * 1 ^ 3) with true.
    + destruct Hbd as [-> | ->]; reflexivity.
    + symmetry. apply Z.eqb_eq. rewrite HL, Nat2Z.inj_mul.
      destruct (greyscale (meta src)); cbn [Z.of_nat Pos.of_succ_nat]; lia.
Qed.

Lemma from_haldclut_1x1_zero_division_witness :
  from_haldclut (mk_png 1 1 (mk_array tc_B [7%Q]) grey8) = Err ZeroDivisionError.
Proof. apply from_haldclut_1x1_zero_division; try reflexivity. left. reflexivity. Defined.

(** ** uniform_intervals *)

Lemma py_range_length n : length (py_range n) = Z.to_nat n.
Proof. unfold py_range. rewrite length_map, length_seq. reflexivity. Qed.

Lemma inject_Z_s_minus_1 s : 2 <= s -> ~ (inject_Z (s - 1) == 0)%Q.
Proof. intros Hs. change 0%Q with (inject_Z 0). rewrite inject_Z_injective. lia. Qed.



Definition is_ok {A} (r : res A) : bool := match r with Ok _ => true | Err _ => false end.

(** [uniform_intervals(1023, n)], the header [write_3dl] computes,
    succeeds for every sample count n from 2 to 73. *)
Lemma uniform_intervals_1023_small_counts :
  forall n, 2 <= n <= 73 -> exists vs, uniform_intervals (inject_Z 1023) n false = Ok vs.
Proof.
  intros n Hn.
  assert (Hall : forallb (fun n => is_ok (uniform_intervals (inject_Z 1023) n false))
                   (map Z.of_nat (seq 2 72)) = true) by (vm_compute; reflexivity).
  rewrite forallb_forall in Hall.
  assert (Hin : In n (map Z.of_nat (seq 2 72))).
  { apply in_map_iff. exists (Z.to_nat n). split; [lia|]. apply in_seq. lia. }
  specialize (Hall n Hin).
  destruct (uniform_intervals (inject_Z 1023) n false); [eauto | discriminate].
Qed.

(** ** Interpolation stays inside the grid and inside the data's range *)

(** Each component of [v] lies in [[lo, hi]]. *)
Definition v3_within (lo hi : Q) (v : Value3D) : Prop :=
  (lo <= c0 v <= hi /\ lo <= c1 v <= hi /\ lo <= c2 v <= hi)%Q.

Lemma Q_convex_between lo hi a b d :
  (lo <= a <= hi -> lo <= b <= hi -> 0 <= d <= 1 -> lo <= a * (1 - d) + b * d <= hi)%Q.
Proof.
  intros Ha Hb Hd.
  assert (0 <= (a - lo) * (1 - d))%Q by (apply Qmult_le_0_compat; lra).
  assert (0 <= (b - lo) * d)%Q by (apply Qmult_le_0_compat; lra).
  assert (0 <= (hi - a) * (1 - d))%Q by (apply Qmult_le_0_compat; lra).
  assert (0 <= (hi - b) * d)%Q by (apply Qmult_le_0_compat; lra).
  split; lra.
Qed.

Lemma lerp_within lo hi a b d :
  v3_within lo hi a -> v3_within lo hi b -> (0 <= d <= 1)%Q ->
  v3_within lo hi (lerp a b d).
Proof.
  unfold v3_within, lerp, v3_add, v3_mul. simpl.
  intros (A0 & A1 & A2) (B0 & B1 & B2) Hd.
  split; [|split]; apply Q_convex_between; assumption.
Qed.

Lemma triple_at_within lo hi l k :
  Forall (fun x => lo <= x <= hi)%Q l -> 0 <= k -> 3 * k + 3 <= Z.of_nat (length l) ->
  v3_within lo hi (triple_at l k).
Proof.
  intros Hl Hk Hlen. rewrite Forall_forall in Hl. unfold v3_within, triple_at. cbn [c0 c1 c2].
  split; [|split]; apply Hl, nth_In; lia.
Qed.

Lemma Qtrunc_bounds q : (0 <= q)%Q ->
  0 <= Qtrunc q /\ (inject_Z (Qtrunc q) <= q)%Q /\ (q < inject_Z (Qtrunc q + 1))%Q.
Proof.
  intros Hq.
  assert (Hn : 0 <= Qnum q)
    by (destruct q as [n d]; unfold Qle in Hq; cbn [Qnum Qden] in Hq |- *; lia).
  assert (E : Qtrunc q = Qfloor q).
  { unfold Qtrunc. destruct q as [n d]. simpl in *. apply Z.quot_div_nonneg; lia. }
  rewrite E. split; [|split; [apply Qfloor_le | apply Qlt_floor]].
  destruct q as [n d]. unfold Qfloor. cbn [Qnum] in Hn. apply Z.div_pos; lia.
Qed.

Lemma axis_coords_in_domain lut v :
  let n := sample_count lut in
  let dom := pynum (input_domain lut) in
  2 <= n -> ~ (dom == 0)%Q ->
  sample_distance lut = (dom / inject_Z (n - 1))%Q ->
  (0 <= v / dom <= 1)%Q ->
  exists i0 d, axis_coords lut v = Ok (i0, d) /\
    0 <= i0 /\ i0 + 1 < n /\ (0 <= d <= 1)%Q.
Proof.
  intros n dom Hn Hdom Hsd Hv.
  assert (Hm := inject_Z_s_minus_1 n Hn).
  assert (Hsd0 : ~ (sample_distance lut == 0)%Q).
  { rewrite Hsd. intros E. apply Hdom.
    setoid_replace dom with (dom / inject_Z (n - 1) * inject_Z (n - 1))%Q
      by (field; exact Hm).
    rewrite E. ring. }
  unfold axis_coords. fold dom.
  destruct (Qeq_bool v dom) eqn:Etop.
  { exists (n - 2), 1%Q. repeat split; try lia; discriminate. }
  apply Qeq_bool_neq in Etop.
  unfold py_div. destruct (Qeq_bool (sample_distance lut) 0) eqn:Ez.
  { apply Qeq_bool_iff in Ez. contradiction. }
  cbn [bind].
  set (q := (v / sample_distance lut)%Q).
  assert (Eq : (q == v / dom * inject_Z (n - 1))%Q)
    by (unfold q; rewrite Hsd; field; split; assumption).
  assert (Hn1 : (1 <= inject_Z (n - 1))%Q)
    by (change 1%Q with (inject_Z 1); rewrite <- Zle_Qle; lia).
  assert (Hlt : (v / dom < 1)%Q).
  { destruct Hv as [_ Hv]. apply Qle_lt_or_eq in Hv as [Hv|Hv]; [exact Hv|].
    exfalso. apply Etop.
    setoid_replace v with (v / dom * dom)%Q by (field; exact Hdom).
    rewrite Hv. ring. }
  assert (Hq0 : (0 <= q)%Q)
    by (rewrite Eq; apply Qmult_le_0_compat; [lra | lra]).
  assert (Hq1 : (q < inject_Z (n - 1))%Q).
  { rewrite Eq.
    assert (0 < (1 - v / dom) * inject_Z (n - 1))%Q
      by (apply Qmult_lt_0_compat; lra).
    lra. }
  destruct (Qtrunc_bounds q Hq0) as (Ht0 & Ht1 & Ht2).
  exists (Qtrunc q),
    (decimal_rem v (sample_distance lut) / sample_distance lut)%Q.
  split; [reflexivity|].
  assert (Ed : (decimal_rem v (sample_distance lut) / sample_distance lut
                == q - inject_Z (Qtrunc q))%Q)
    by (unfold decimal_rem, q; field; exact Hsd0).
  rewrite Ed.
  assert (Htn : Qtrunc q < n - 1).
  { rewrite Zlt_Qlt. eapply Qle_lt_trans; eassumption. }
  rewrite inject_Z_plus in Ht2. change (inject_Z 1) with 1%Q in Ht2.
  repeat split; try lia; lra.
Qed.

Lemma interpolation_core lut lo hi r g b :
  let n := sample_count lut in
  let dom := pynum (input_domain lut) in
  2 <= n -> ~ (dom == 0)%Q ->
  sample_distance lut = (dom / inject_Z (n - 1))%Q ->
  Z.of_nat (length (items (data lut))) = 3 * n ^ 3 ->
  Forall (fun x => lo <= x <= hi)%Q (items (data lut)) ->
  (0 <= r / dom <= 1)%Q -> (0 <= g / dom <= 1)%Q -> (0 <= b / dom <= 1)%Q ->
  exists v, get_interpolated_color_value lut r g b = Ok v /\ v3_within lo hi v.
Proof.
  intros n dom H2 Hdom Hsd Hlen Hb Hr Hg Hbb.
  destruct (axis_coords_in_domain lut r H2 Hdom Hsd Hr) as (r0 & rd & Er & Hr0 & Hr1 & Hrd).
  destruct (axis_coords_in_domain lut g H2 Hdom Hsd Hg) as (g0 & gd & Eg & Hg0 & Hg1 & Hgd).
  destruct (axis_coords_in_domain lut b H2 Hdom Hsd Hbb) as (b0 & bd & Eb & Hb0 & Hb1 & Hbd).
  unfold get_interpolated_color_value. rewrite Er, Eg, Eb. cbn [bind].
  repeat (rewrite (get_color_value_in_buffer lut _ _ _ Hlen)
            by (apply flat_offset_range; lia)).
  cbn [bind]. eexists. split; [reflexivity|].
  assert (Ht : forall x y z, 0 <= x < n -> 0 <= y < n -> 0 <= z < n ->
            v3_within lo hi (triple_at (items (data lut)) (flat_offset lut x y z))).
  { intros x y z Hx Hy Hz. destruct (flat_offset_range lut x y z Hx Hy Hz).
    apply triple_at_within; [exact Hb | lia | lia]. }
  repeat apply lerp_within; try assumption; apply Ht; lia.
Qed.

(** ** Resampling with get_values_translated *)

Lemma length_flat_map_const {A B} (f : A -> list B) k l :
  (forall x, length (f x) = k) -> length (flat_map f l) = (length l * k)%nat.
Proof.
  intros Hf. induction l as [|x l IH]; [reflexivity|].
  simpl. rewrite length_app, Hf, IH. lia.
Qed.

Lemma indexes_length red n :
  length (indexes red n) = (Z.to_nat n * Z.to_nat n * Z.to_nat n)%nat.
Proof.
  unfold indexes.
  destruct red;
    (rewrite (length_flat_map_const _ (Z.to_nat n * Z.to_nat n)%nat), py_range_length;
     [nia|]);
    intros x; rewrite (length_flat_map_const _ (Z.to_nat n)), py_range_length;
    try reflexivity; intros y; rewrite length_map, py_range_length; reflexivity.
Qed.

Lemma stream_map_all_ok_P {A B} (f : A -> res B) (P : B -> Prop) l :
  (forall x, In x l -> exists y, f x = Ok y /\ P y) ->
  exists ys, stream_map f l = (ys, None) /\ length ys = length l /\ Forall P ys.
Proof.
  induction l as [|x l IH]; intros H; [exists []; repeat constructor|].
  destruct (H x (or_introl eq_refl)) as (y & Ey & Py).
  destruct IH as (ys & E & L & F); [intros z Hz; apply H; right; exact Hz|].
  exists (y :: ys). simpl. rewrite Ey, E. repeat split; [simpl; lia|constructor; assumption].
Qed.

Lemma resample_core lut lo hi red m :
  let n := sample_count lut in
  let dom := pynum (input_domain lut) in
  2 <= n -> ~ (dom == 0)%Q -> input_domain lut <> PNone ->
  sample_distance lut = (dom / inject_Z (n - 1))%Q ->
  Z.of_nat (length (items (data lut))) = 3 * n ^ 3 ->
  Forall (fun x => lo <= x <= hi)%Q (items (data lut)) ->
  2 <= m ->
  exists vs, get_values_translated lut red (PInt m) (input_domain lut) = Ok (vs, None) /\
    Z.of_nat (length vs) = m ^ 3 /\ Forall (v3_within lo hi) vs.
Proof.
  intros n dom H2 Hdom Hnn Hsd Hlen Hb Hm.
  unfold get_values_translated. rewrite py_ne_same.
  assert (Hf : py_float (input_domain lut) = Ok dom)
    by (unfold dom; destruct (input_domain lut); [contradiction | reflexivity | reflexivity]).
  rewrite Hf. cbn [bind]. unfold py_truediv.
  replace (py_div (pynum (input_domain lut)) dom) with (Ok (dom / dom)%Q)
    by (destruct (input_domain lut); [contradiction| |]; unfold py_div;
        fold dom; destruct (Qeq_bool dom 0) eqn:E;
        [apply Qeq_bool_iff in E; contradiction | reflexivity | 
         apply Qeq_bool_iff in E; contradiction | reflexivity]).
  replace (match input_domain lut with PNone => Err TypeError | _ => Ok (dom / dom)%Q end)
    with (@Ok Q (dom / dom)%Q)
    by (destruct (input_domain lut); [contradiction | reflexivity | reflexivity]).
  cbn [bind].
  assert (Hlen_idx : Z.of_nat (length (indexes red m)) = m ^ 3)
    by (rewrite indexes_length; apply nat_cube_Z; lia).
  assert (Hm1 := inject_Z_s_minus_1 m Hm).
  destruct (py_ne (PInt m) (PInt (sample_count lut))) eqn:Ei.
  - match goal with |- context [stream_map ?f (indexes red m)] =>
      assert (Hall : forall x, In x (indexes red m) ->
                exists y, f x = Ok y /\ v3_within lo hi y);
      [|destruct (stream_map_all_ok_P f _ _ Hall) as (ys & E & L & F);
        exists ys; rewrite E; split; [reflexivity|];
        split; [rewrite L; exact Hlen_idx | exact F]]
    end.
    intros [[r g] b] Hin. apply in_indexes in Hin as (Hr & Hg & Hbb).
    unfold py_div at 1. destruct (Qeq_bool (inject_Z (m - 1)) 0) eqn:Ez;
      [apply Qeq_bool_iff in Ez; contradiction|].
    cbn [bind]. fold dom.
    assert (Hc : forall x, 0 <= x < m -> (0 <= inject_Z x * (dom / inject_Z (m - 1)) / dom <= 1)%Q).
    { intros x Hx.
      setoid_replace (inject_Z x * (dom / inject_Z (m - 1)) / dom)%Q
        with (inject_Z x / inject_Z (m - 1))%Q by (field; split; assumption).
      assert (Hpos : (0 < inject_Z (m - 1))%Q)
        by (change 0%Q with (inject_Z 0); rewrite <- Zlt_Qlt; lia).
      split.
      - apply Qle_shift_div_l; [exact Hpos|]. rewrite Qmult_0_l.
        change 0%Q with (inject_Z 0). rewrite <- Zle_Qle. lia.
      - apply Qle_shift_div_r; [exact Hpos|]. rewrite Qmult_1_l.
        rewrite <- Zle_Qle. lia. }
    apply interpolation_core; try assumption; apply Hc; assumption.
  - match goal with |- context [stream_map ?f (indexes red m)] =>
      assert (Hall : forall x, In x (indexes red m) ->
                exists y, f x = Ok y /\ v3_within lo hi y);
      [|destruct (stream_map_all_ok_P f _ _ Hall) as (ys & E & L & F);
        exists ys; rewrite E; split; [reflexivity|];
        split; [rewrite L; exact Hlen_idx | exact F]]
    end.
    apply py_ne_false in Ei; [|discriminate|discriminate].
    cbn [pynum] in Ei. rewrite inject_Z_injective in Ei.
    intros [[r g] b] Hin. apply in_indexes in Hin as (Hr & Hg & Hbb).
    rewrite Ei in Hr, Hg, Hbb.
    destruct (flat_offset_range lut r g b Hr Hg Hbb).
    eexists. split; [apply get_color_value_in_buffer; [exact Hlen | split; assumption]|].
    apply triple_at_within; [exact Hb | lia | lia].
Qed.

(** ** write_cube *)

(** Red-fastest enumeration of an n x n x n grid: the k-th point has red
    [k mod n] (fastest), green [(k / n) mod n] and blue [k / n^2] (slowest). *)
Definition red_fastest_grid (n : Z) : list (Z * Z * Z) :=
  map (fun k => (k mod n, (k / n) mod n, k / (n * n)))
      (map Z.of_nat (seq 0 (Z.to_nat n * Z.to_nat n * Z.to_nat n))).

Lemma indexes_red_fastest n :
  0 <= n -> indexes true n = red_fastest_grid n.
Proof.
  intros Hn. unfold red_fastest_grid. rewrite <- seq_cube, !map_flat_map.
  unfold indexes, py_range.
  rewrite flat_map_map. apply flat_map_ext_in. intros x Hx.
  rewrite flat_map_map, !map_flat_map. apply flat_map_ext_in. intros y Hy.
  rewrite !map_map. apply map_ext_in. intros z Hz.
  apply in_seq in Hx, Hy, Hz.
  rewrite !Nat2Z.inj_add, !Nat2Z.inj_mul, Z2Nat.id by exact Hn.
  assert (E : forall a b c : Z, (a, b, c) = (Z.of_nat x, Z.of_nat y, Z.of_nat z) ->
                (c, b, a) = (Z.of_nat z, Z.of_nat y, Z.of_nat x))
    by (intros a b c H; injection H as -> -> ->; reflexivity).
  symmetry. apply E, decode_cube; lia.
Qed.

Lemma Forall2_map_v3_eq {A} (f g : A -> Value3D) l :
  (forall x, In x l -> v3_eq (f x) (g x)) -> Forall2 v3_eq (map f l) (map g l).
Proof.
  induction l as [|x l IH]; intros H; constructor.
  - apply H. left. reflexivity.
  - apply IH. intros y Hy. apply H. right. exact Hy.
Qed.

Lemma write_cube_rows :
  forall d sc dom red lut,
    ColorLUT_init d sc dom red = Ok lut ->
    ~ (pynum dom == 0)%Q ->
    exists vs,
      write_cube lut = Ok (CubeSize (sample_count lut) :: map CubeRow vs, None) /\
      Forall2 v3_eq vs
        (map (fun '(r, g, b) =>
                v3_mul (triple_at (items d) (flat_offset lut r g b)) (1 / pynum dom))
             (red_fastest_grid (sample_count lut))) /\
      Z.of_nat (length vs) = sample_count lut ^ 3.
Proof.
  intros d sc dom red lut Hinit Hdom.
  destruct (ColorLUT_init_ok _ _ _ _ _ Hinit)
    as (Hd & Hsc & Hid & Hred & Hnn & H2 & Hlen & _).
  subst d. rewrite <- Hid in Hdom, Hnn |- *.
  assert (Hgl : Z.of_nat (length (red_fastest_grid (sample_count lut)))
                = sample_count lut ^ 3)
    by (unfold red_fastest_grid; rewrite !length_map, length_seq; apply nat_cube_Z; lia).
  unfold write_cube, get_values_translated. rewrite py_ne_same.
  assert (Hf : py_float (input_domain lut) = Ok (pynum (input_domain lut)))
    by (destruct (input_domain lut); [contradiction | reflexivity | reflexivity]).
  rewrite Hf. cbn [bind py_truediv pynum]. unfold py_div at 1.
  destruct (Qeq_bool (pynum (input_domain lut)) 0) eqn:E;
    [apply Qeq_bool_iff in E; contradiction|].
  cbn [bind].
  rewrite (stream_map_all_ok _
             (fun '(r, g, b) => triple_at (items (data lut)) (flat_offset lut r g b))).
  2:{ intros [[r g] b] Hin.
      apply in_indexes in Hin as (Hr & Hg & Hb).
      apply get_color_value_in_buffer; [exact Hlen|].
      apply flat_offset_range; assumption. }
  rewrite indexes_red_fastest by lia.
  destruct (py_ne (PFloat 1) (input_domain lut)) eqn:Es.
  - eexists. split; [reflexivity|]. split; [|rewrite !length_map; exact Hgl].
    rewrite map_map. apply Forall2_map_v3_eq. intros [[r g] b] _. apply v3_eq_refl.
  - apply py_ne_false in Es; [|discriminate|assumption]. cbn [pynum] in Es.
    eexists. split; [reflexivity|]. split; [|rewrite length_map; exact Hgl].
    apply Forall2_map_v3_eq. intros [[r g] b] _.
    unfold v3_eq, v3_mul. simpl.
    setoid_replace (1 / pynum (input_domain lut))%Q with 1%Q
      by (rewrite <- Es; field).
    repeat split; ring.
Qed.

(** [write_cube] on any ColorLUT built by the constructor with a nonzero
    input_domain writes the header [LUT_3D_SIZE n] for its own sample_count n,
    then one row per grid point in red-fastest order (blue slowest), n^3 rows
    in all, each the stored sample scaled by 1.0/input_domain, and finishes
    without error. *)
Theorem write_cube_layout :
  forall d sc dom red lut,
    ColorLUT_init d sc dom red = Ok lut ->
    ~ (pynum dom == 0)%Q ->
    exists vs,
      write_cube lut = Ok (CubeSize (sample_count lut) :: map CubeRow vs, None) /\
      Forall2 v3_eq vs
        (map (fun '(r, g, b) =>
                v3_mul (triple_at (items d) (flat_offset lut r g b)) (1 / pynum dom))
             (red_fastest_grid (sample_count lut))) /\
      Z.of_nat (length vs) = sample_count lut ^ 3.
Proof. exact write_cube_rows. Qed.

Lemma write_cube_layout_witness :
  exists vs,
    write_cube lut_blue255 = Ok (CubeSize (sample_count lut_blue255) :: map CubeRow vs, None) /\
    Forall2 v3_eq vs
      (map (fun '(r, g, b) =>
              v3_mul (triple_at (items ramp24) (flat_offset lut_blue255 r g b))
                     (1 / pynum (PInt 255)))
           (red_fastest_grid (sample_count lut_blue255))) /\
    Z.of_nat (length vs) = sample_count lut_blue255 ^ 3.
Proof.
  apply (write_cube_layout ramp24 (PInt 2) (PInt 255) false lut_blue255 lut_blue255_init).
  discriminate.
Defined.

(** ** get_values_translated: edge counts and output scaling *)

Lemma py_float_pynum v : v <> PNone -> py_float v = Ok (pynum v).
Proof. destruct v; [contradiction | reflexivity | reflexivity]. Qed.

Lemma py_truediv_ok x y : x <> PNone -> ~ (y == 0)%Q -> py_truediv x y = Ok (pynum x / y)%Q.
Proof.
  intros Hx Hy. unfold py_truediv, py_div.
  destruct (Qeq_bool y 0) eqn:E; [apply Qeq_bool_iff in E; contradiction|].
  destruct x; [contradiction | reflexivity | reflexivity].
Qed.



Lemma output_scaling_core :
  forall d sc dom red lut red' m od,
    ColorLUT_init d sc dom red = Ok lut ->
    ~ (pynum dom == 0)%Q -> od <> PNone ->
    exists vs e ws,
      get_values_translated lut red' (PInt m) dom = Ok (vs, e) /\
      get_values_translated lut red' (PInt m) od = Ok (ws, e) /\
      Forall2 v3_eq ws (map (fun v => v3_mul v (pynum od / pynum dom)) vs).
Proof.
  intros d sc dom red lut red' m od Hinit Hdom Hod.
  destruct (ColorLUT_init_ok _ _ _ _ _ Hinit)
    as (_ & _ & Hid & _ & Hnn & H2 & _ & _).
  subst dom.
  unfold get_values_translated.
  rewrite (py_float_pynum _ Hnn). cbn [bind].
  rewrite (py_truediv_ok _ _ Hod Hdom), (py_truediv_ok _ _ Hnn Hdom). cbn [bind].
  rewrite py_ne_same.
  destruct (py_ne (PInt m) (PInt (sample_count lut)));
    match goal with |- context [stream_map ?f ?l] =>
      destruct (stream_map f l) as [vs e] end;
    exists vs, e;
    (destruct (py_ne od (input_domain lut)) eqn:Es;
     [ eexists; split; [reflexivity|]; split; [reflexivity|];
       apply Forall2_map_v3_eq; intros v _; apply v3_eq_refl
     | apply py_ne_false in Es; [|exact Hod|exact Hnn];
       exists vs; split; [reflexivity|]; split; [reflexivity|];
       rewrite <- (map_id vs) at 1; apply Forall2_map_v3_eq; intros v _;
       unfold v3_eq, v3_mul; simpl;
       setoid_replace (pynum od / pynum (input_domain lut))%Q with 1%Q
         by (rewrite Es; field; exact Hdom);
       repeat split; ring ]).
Qed.



(** ** Writing a LUT whose input_domain is zero *)

(** A ColorLUT built with input_domain 0 is accepted by the constructor, but
    neither writer gets to open the destination: [write_cube] raises
    ZeroDivisionError computing [1.0 / float(input_domain)], and [write_3dl]
    raises (ZeroDivisionError, or the ValueError of [uniform_intervals]). *)
Theorem write_zero_domain_raises :
  forall d sc dom red lut,
    ColorLUT_init d sc dom red = Ok lut ->
    (pynum dom == 0)%Q ->
    write_cube lut = Err ZeroDivisionError /\ exists e, write_3dl lut = Err e.
Proof.
  intros d sc dom red lut Hinit Hdom.
  destruct (ColorLUT_init_ok _ _ _ _ _ Hinit)
    as (_ & _ & Hid & _ & Hnn & _ & _ & _).
  subst dom.
  assert (Hz : Qeq_bool (pynum (input_domain lut)) 0 = true) by (apply Qeq_bool_iff; exact Hdom).
  split.
  - unfold write_cube, get_values_translated.
    rewrite (py_float_pynum _ Hnn). cbn [bind py_truediv]. unfold py_div at 1.
    rewrite Hz. reflexivity.
  - unfold write_3dl.
    destruct (uniform_intervals _ _ _) as [h|e]; [|exists e; reflexivity].
    cbn [bind]. unfold get_values_translated.
    rewrite (py_float_pynum _ Hnn). cbn [bind py_truediv]. unfold py_div at 1.
    rewrite Hz. eexists. reflexivity.
Qed.

(** The LUT the constructor builds from [ramp24] with input_domain 0. *)
Definition lut_zero_domain : ColorLUT := lut_of (ColorLUT_init ramp24 (PInt 2) (PInt 0) false).

Lemma lut_zero_domain_init :
  ColorLUT_init ramp24 (PInt 2) (PInt 0) false = Ok lut_zero_domain.
Proof. vm_compute. reflexivity. Qed.

Lemma write_zero_domain_raises_witness :
  write_cube lut_zero_domain = Err ZeroDivisionError /\
  exists e, write_3dl lut_zero_domain = Err e.
Proof.
  apply (write_zero_domain_raises ramp24 (PInt 2) (PInt 0) false lut_zero_domain
           lut_zero_domain_init).
  reflexivity.
Defined.

(** ** cli *)

Lemma flat_offset_red_fastest lut k :
  red_increments_fastest lut = true -> 0 < sample_count lut -> 0 <= k ->
  let n := sample_count lut in
  flat_offset lut (k mod n) ((k / n) mod n) (k / (n * n)) = k.
Proof.
  intros Hr Hn Hk n. unfold flat_offset. rewrite Hr. fold n.
  rewrite <- Z.div_div by lia.
  pose proof (Z.div_mod k n ltac:(lia)) as E1.
  pose proof (Z.div_mod (k / n) n ltac:(lia)) as E2.
  nia.
Qed.

Lemma red_fastest_grid_storage_order lut (f : Z -> Value3D) :
  red_increments_fastest lut = true -> 0 < sample_count lut ->
  map (fun '(r, g, b) => f (flat_offset lut r g b)) (red_fastest_grid (sample_count lut)) =
  map (fun i => f (Z.of_nat i))
      (seq 0 (Z.to_nat (sample_count lut) * Z.to_nat (sample_count lut)
              * Z.to_nat (sample_count lut))).
Proof.
  intros Hr Hn. unfold red_fastest_grid. rewrite !map_map.
  apply map_ext. intros i. f_equal. apply flat_offset_red_fastest; [exact Hr | lia | lia].
Qed.

Lemma str_eqb_nonempty s : s <> ""%string -> String.eqb s "" = false.
Proof. intros H. apply String.eqb_neq. exact H. Qed.

(** Converting a Hald CLUT image to a cube file: when the source path ends in
    [.png] or [.cube] (any case), the destination type is cube (given, or
    inferred from a [.cube] destination), and the decoder reads a square
    image of side k^3 (k >= 2) of bit depth 8 or 16 without palette, gamma,
    transparent color or alpha, holding k^6 integer pixels, [cli] writes the
    header [LUT_3D_SIZE k^2] and then the image's pixels in file order (grey
    pixels expanded to three equal components), each divided by
    2^bitdepth - 1, and finishes without error. *)
Theorem cli_hald_image_to_cube :
  forall read_flat src dest dt p k,
    src <> ""%string -> dest <> ""%string ->
    (file_ext src = "png"%string \/ file_ext src = "cube"%string) ->
    ((exists t, dt = Some t /\ str_lower t = "cube"%string) \/
     (dt = None /\ file_ext dest = "cube"%string)) ->
    read_flat src = Some p ->
    has_palette (meta p) = false -> has_gamma (meta p) = false ->
    has_transparent (meta p) = false -> alpha (meta p) = false ->
    (bitdepth (meta p) = 8 \/ bitdepth (meta p) = 16) ->
    in_bBhHiIlL (typecode (pixels p)) = true ->
    2 <= k -> width p = k ^ 3 -> height p = k ^ 3 ->
    Z.of_nat (length (items (pixels p))) =
      (if greyscale (meta p) then 1 else 3) * k ^ 6 ->
    exists vs,
      cli read_flat src dest dt = WroteCube (CubeSize (k ^ 2) :: map CubeRow vs) None /\
      Forall2 v3_eq vs
        (map (fun i => v3_mul (triple_at (items (haldclut_data p)) (Z.of_nat i))
                              (1 / inject_Z (2 ^ bitdepth (meta p) - 1)))
             (seq 0 (Z.to_nat (k ^ 6)))).
Proof.
  intros read_flat src dest dt p k Hs Hd Hse Hdt Hread Hp Hg Ht Ha Hbd Htc Hk Hw Hh Hlen.
  destruct (hald_image_lut p k Hp Hg Ht Ha Hbd Htc Hk Hw Hh Hlen) as [E1 E2].
  assert (Hnz : ~ (pynum (PInt (2 ^ bitdepth (meta p) - 1)) == 0)%Q)
    by (cbn [pynum]; change 0%Q with (inject_Z 0); rewrite inject_Z_injective;
        destruct Hbd as [-> | ->]; discriminate).
  destruct (write_cube_rows _ _ _ _ _ E2 Hnz) as (vs & Hwc & Hf & _).
  exists vs. split.
  - unfold cli. rewrite (str_eqb_nonempty _ Hs), (str_eqb_nonempty _ Hd).
    assert (Hsrc : (if String.eqb (file_ext src) "png" then load_haldclut read_flat src
                    else if String.eqb (file_ext src) "3dl" then inl NotImplementedError
                    else if String.eqb (file_ext src) "cube" then load_haldclut read_flat src
                    else inl (CliValueError CLI_src_type)) = load_haldclut read_flat src)
      by (destruct Hse as [-> | ->]; reflexivity).
    cbv zeta. rewrite Hsrc. unfold load_haldclut. rewrite Hread, E1, E2.
    assert (Hdt' : str_lower (match match dt with
                                    | Some t => if String.eqb t "" then None else Some t
                                    | None => None
                                    end with
                              | Some t => t
                              | None => if String.eqb (file_ext dest) "png"
                                        then "haldclut"%string else file_ext dest
                              end) = "cube"%string).
    { destruct Hdt as [(t & -> & Ht') | (-> & He)].
      - destruct t as [|c t]; [discriminate Ht'|]. exact Ht'.
      - rewrite He. reflexivity. }
    rewrite Hdt'. cbv beta iota.
    replace (String.eqb "cube" "haldclut") with false by reflexivity.
    replace (String.eqb "cube" "3dl") with false by reflexivity.
    replace (String.eqb "cube" "cube") with true by reflexivity.
    rewrite Hwc. reflexivity.
  - rewrite (red_fastest_grid_storage_order
               (mk_lut (haldclut_data p) (k ^ 2) (PInt (2 ^ bitdepth (meta p) - 1)) true
                  Integral (inject_Z (2 ^ bitdepth (meta p) - 1) / inject_Z (k ^ 2 - 1)))
               (fun o => v3_mul (triple_at (items (haldclut_data p)) o)
                           (1 / pynum (PInt (2 ^ bitdepth (meta p) - 1)))))
      in Hf by (cbn [red_increments_fastest sample_count]; first [reflexivity | nia]).
    cbn [sample_count pynum] in Hf.
    replace (Z.to_nat (k ^ 6))
      with (Z.to_nat (k ^ 2) * Z.to_nat (k ^ 2) * Z.to_nat (k ^ 2))%nat.
    + exact Hf.
    + apply Nat2Z.inj. rewrite nat_cube_Z by nia. rewrite Z2Nat.id by nia. ring.
Qed.

Lemma cli_hald_image_to_cube_witness :
  exists vs,
    cli (fun _ => Some png8_grey) "HALD.PNG" "out.cube" None =
      WroteCube (CubeSize (2 ^ 2) :: map CubeRow vs) None /\
    Forall2 v3_eq vs
      (map (fun i => v3_mul (triple_at (items (haldclut_data png8_grey)) (Z.of_nat i))
                            (1 / inject_Z (2 ^ bitdepth (meta png8_grey) - 1)))
           (seq 0 (Z.to_nat (2 ^ 6)))).
Proof.
  apply (cli_hald_image_to_cube (fun _ => Some png8_grey) "HALD.PNG" "out.cube" None
           png8_grey 2);
    try discriminate; try reflexivity; try lia.
  - left. reflexivity.
  - right. split; reflexivity.
  - left. reflexivity.
Defined.

(** With a source and a destination given, [cli] raises NotImplementedError
    for a source whose extension is [3dl] (any case), and the ValueError for
    an inappropriate source type for an extension other than [png], [3dl]
    and [cube], whatever the destination and its type; no file is read in
    either case. *)
Theorem cli_rejects_unsupported_sources :
  forall read_flat src dest dt,
    src <> ""%string -> dest <> ""%string ->
    (file_ext src = "3dl"%string ->
       cli read_flat src dest dt = CliRaised NotImplementedError) /\
    (file_ext src <> "png"%string -> file_ext src <> "3dl"%string ->
     file_ext src <> "cube"%string ->
       cli read_flat src dest dt = CliRaised (CliValueError CLI_src_type)).
Proof.
  intros read_flat src dest dt Hs Hd.
  unfold cli. rewrite (str_eqb_nonempty _ Hs), (str_eqb_nonempty _ Hd). cbv zeta.
  split.
  - intros He. rewrite He. reflexivity.
  - intros H1 H2 H3.
    rewrite (proj2 (String.eqb_neq _ _) H1), (proj2 (String.eqb_neq _ _) H2),
      (proj2 (String.eqb_neq _ _) H3).
    reflexivity.
Qed.

Lemma cli_rejects_unsupported_sources_witness :
  cli (fun _ => None) "grade.3DL" "out.cube" None = CliRaised NotImplementedError /\
  cli (fun _ => None) "grade.tiff" "out.3dl" (Some "cube"%string) =
    CliRaised (CliValueError CLI_src_type).
Proof.
  split.
  - apply (proj1 (cli_rejects_unsupported_sources (fun _ => None) "grade.3DL" "out.cube" None
                    ltac:(discriminate) ltac:(discriminate))).
    reflexivity.
  - apply (proj2 (cli_rejects_unsupported_sources (fun _ => None) "grade.tiff" "out.3dl"
                    (Some "cube"%string) ltac:(discriminate) ltac:(discriminate)));
      discriminate.
Defined.

(** [cli] never writes a Hald CLUT: once the source has loaded, a
    destination type of [haldclut] (given in any case, or inferred from a
    [.png] destination) makes it call [clut.write_haldclut(dest)], which
    raises TypeError since the method takes no argument besides the LUT. *)
Theorem cli_haldclut_destination_raises :
  forall read_flat src dest dt clut,
    src <> ""%string -> dest <> ""%string ->
    (file_ext src = "png"%string \/ file_ext src = "cube"%string) ->
    load_haldclut read_flat src = inr clut ->
    ((exists t, dt = Some t /\ str_lower t = "haldclut"%string) \/
     ((dt = None \/ dt = Some ""%string) /\ file_ext dest = "png"%string)) ->
    cli read_flat src dest dt = CliRaised (PyExn TypeError).
Proof.
  intros read_flat src dest dt clut Hs Hd Hse Hl Hdt.
  unfold cli. rewrite (str_eqb_nonempty _ Hs), (str_eqb_nonempty _ Hd). cbv zeta.
  assert (Hsrc : (if String.eqb (file_ext src) "png" then load_haldclut read_flat src
                  else if String.eqb (file_ext src) "3dl" then inl NotImplementedError
                  else if String.eqb (file_ext src) "cube" then load_haldclut read_flat src
                  else inl (CliValueError CLI_src_type)) = inr clut)
    by (destruct Hse as [-> | ->]; exact Hl).
  rewrite Hsrc.
  assert (Hdt' : str_lower (match match dt with
                                  | Some t => if String.eqb t "" then None else Some t
                                  | None => None
                                  end with
                            | Some t => t
                            | None => if String.eqb (file_ext dest) "png"
                                      then "haldclut"%string else file_ext dest
                            end) = "haldclut"%string).
  { destruct Hdt as [(t & -> & Ht) | ([-> | ->] & He)].
    - destruct t as [|c t]; [discriminate Ht|]. exact Ht.
    - rewrite He. reflexivity.
    - rewrite He. reflexivity. }
  rewrite Hdt'. reflexivity.
Qed.

Lemma cli_haldclut_destination_raises_witness :
  cli (fun _ => Some png8_grey) "hald.png" "Copy.PNG" None = CliRaised (PyExn TypeError).
Proof.
  apply (cli_haldclut_destination_raises (fun _ => Some png8_grey) "hald.png" "Copy.PNG" None
           (lut_of (from_haldclut png8_grey)));
    try discriminate.
  - left. reflexivity.
  - vm_compute. reflexivity.
  - right. split; [left; reflexivity | reflexivity].
Defined.

(** ** write_3dl for small grids *)

Lemma list_bounded_nonneg (l : list Q) :
  exists B, (0 <= B)%Q /\ Forall (fun x => - B <= x <= B)%Q l.
Proof.
  induction l as [|x l (B & HB0 & HB)]; [exists 0%Q; split; [lra | constructor]|].
  exists (B + Qabs x)%Q.
  assert (x <= Qabs x)%Q by apply Qle_Qabs.
  assert (- x <= Qabs x)%Q by (rewrite <- Qabs_opp; apply Qle_Qabs).
  split; [lra|]. constructor; [lra|].
  eapply Forall_impl; [|exact HB]. intros y Hy. cbv beta in Hy |- *. lra.
Qed.

Lemma list_bounded (l : list Q) : exists B, Forall (fun x => - B <= x <= B)%Q l.
Proof. destruct (list_bounded_nonneg l) as (B & _ & H). exists B. exact H. Qed.
(** [write_3dl] succeeds on every ColorLUT built by the constructor with a
    nonzero input_domain and a sample_count n of at most 73: it writes the
    header line and then n^3 color lines, and finishes without error. *)
Theorem write_3dl_succeeds_up_to_73 :
  forall d sc dom red lut,
    ColorLUT_init d sc dom red = Ok lut ->
    ~ (pynum dom == 0)%Q ->
    sample_count lut <= 73 ->
    exists header rows,
      write_3dl lut = Ok (Header header :: rows, None) /\
      Z.of_nat (length rows) = sample_count lut ^ 3.
Proof.
  intros d sc dom red lut Hinit Hdom H73.
  destruct (ColorLUT_init_ok _ _ _ _ _ Hinit)
    as (Hd & _ & Hid & _ & Hnn & H2 & Hlen & Hsd).
  destruct (uniform_intervals_1023_small_counts (sample_count lut) ltac:(lia)) as (h & Hh).
  destruct (output_scaling_core d sc dom red lut false (sample_count lut) (PInt 1023)
              Hinit Hdom ltac:(discriminate)) as (vs & e & ws & Gd & Go & Hf).
  destruct (list_bounded (items d)) as (B & Hb).
  subst d dom.
  destruct (resample_core lut (- B) B false (sample_count lut) H2 Hdom Hnn Hsd Hlen Hb
              ltac:(lia)) as (vs' & Gd' & Hl & _).
  rewrite Gd in Gd'. injection Gd' as <- ->.
  exists h, (map format_row ws). split.
  - unfold write_3dl. rewrite Hh. cbn [bind]. rewrite Go. reflexivity.
  - rewrite length_map, (Forall2_length Hf), length_map. exact Hl.
Qed.

Lemma write_3dl_succeeds_up_to_73_witness :
  exists header rows,
    write_3dl lut_blue255 = Ok (Header header :: rows, None) /\
    Z.of_nat (length rows) = sample_count lut_blue255 ^ 3.
Proof.
  apply (write_3dl_succeeds_up_to_73 ramp24 (PInt 2) (PInt 255) false lut_blue255
           lut_blue255_init); [discriminate | vm_compute; discriminate].
Defined.
